(** * Verification of [Assignment2/Part3/benchmark.py]

    A shallow embedding of the [benchmark] decorator and of the
    multi-threaded driver [test], and the properties the specification
    states about them.

    The Python code is effectful: it reads a clock, prints, writes a file,
    calls a workload that may raise, and spawns threads.  It is modelled in
    a state-and-exception monad over an explicit [World]. *)

From Stdlib Require Import ZArith List String Ascii Lia DecimalString.
From Stdlib Require DecimalPos DecimalZ.
From stdpp Require Import base tactics option list gmap strings.

Local Open Scope Z_scope.

(** ** Strings: the pieces of [str], [str.join] and [str.format] in use *)

(** The line terminator ["\n"]. *)
Definition nl : ascii := "010"%char.
Definition NL : string := String nl EmptyString.

(** [str(i)] on a Python [int]. *)
Definition str_int (z : Z) : string := NilZero.string_of_int (Z.to_int z).

(** [str(b)] on a Python [bool]. *)
Definition str_bool (b : bool) : string := if b then "True" else "False".

Fixpoint spaces (n : nat) : string :=
  match n with
  | O => EmptyString
  | Datatypes.S n' => String " "%char (spaces n')
  end.

(** The format specification [>14]: right-aligned in a field of the given
    width, never truncated. *)
Definition rjust (width : nat) (s : string) : string :=
  spaces (width - String.length s) +:+ s.

(** The format specification [>14.8] on a [str] argument: the precision
    truncates the text, then it is right-aligned. *)
Definition rjust_prec (width prec : nat) (s : string) : string :=
  rjust width (substring 0 prec s).

(** [sep.join(parts)]. *)
Definition join (sep : string) (parts : list string) : string :=
  String.concat sep parts.

(** Reading a text back line by line: every ["\n"] ends a line, and a
    last line without terminator counts when it is not empty. *)
Fixpoint splitlines_from (cur : string) (s : string) : list string :=
  match s with
  | EmptyString => match cur with EmptyString => [] | _ => [cur] end
  | String c s' =>
      if Ascii.eqb c nl then cur :: splitlines_from EmptyString s'
      else splitlines_from (cur +:+ String c EmptyString) s'
  end.

Definition splitlines (s : string) : list string :=
  splitlines_from EmptyString s.

Fixpoint no_newline (s : string) : bool :=
  match s with
  | EmptyString => true
  | String c s' => negb (Ascii.eqb c nl) && no_newline s'
  end.

(** The character [c] does not occur in [s]. *)
Fixpoint lacks (c : ascii) (s : string) : bool :=
  match s with
  | EmptyString => true
  | String x s' => negb (Ascii.eqb x c) && lacks c s'
  end.

(** ** Exceptions *)

Inductive exn : Type :=
  | StatisticsError            (* raised by [statistics.mean] / [variance] *)
  | OSError                    (* raised by [open] *)
  | UserError (code : nat).    (* anything the workload raises *)

(** ** Configuration and run records *)

(** The keyword arguments of [benchmark]. *)
Record Config : Type := mkConfig {
  warmups : Z;
  iter : Z;
  verbose : bool;
  csv_file : option string
}.

(** [range(n)]: empty when [n <= 0]. *)
Definition range (n : Z) : list Z := seqZ 0 n.

(** ** The sample workload *)

(** [fib(n)], with the recursion depth the interpreter still allows:
    [None] is Python's RecursionError. *)
Fixpoint fib (depth : nat) (n : Z) : option Z :=
  match depth with
  | O => None
  | Datatypes.S depth' =>
      if (n =? 0) || (n =? 1) then Some 1
      else match fib depth' (n - 1) with
           | Some a =>
               match fib depth' (n - 2) with
               | Some b => Some (a + b)
               | None => None
               end
           | None => None
           end
  end.

(** [fib] again, counting the calls of [fib] that the evaluation makes,
    the outermost included. *)
Fixpoint fib_count (depth : nat) (n : Z) : option (Z * Z) :=
  match depth with
  | O => None
  | Datatypes.S depth' =>
      if (n =? 0) || (n =? 1) then Some (1, 1)
      else match fib_count depth' (n - 1) with
           | Some (a, ca) =>
               match fib_count depth' (n - 2) with
               | Some (b, cb) => Some (a + b, 1 + ca + cb)
               | None => None
               end
           | None => None
           end
  end.

(** ** The Python runtime

    The type of clock readings and durations (Python [float]) with the
    operations on it that the code uses, and the paths that can be opened
    for writing.  The numerical content of floating point arithmetic and of
    float formatting is left abstract. *)
Class Runtime : Type := {
  time : Type;
  tsub : time -> time -> time;            (* [t2 - t1] *)
  str_float : time -> string;             (* [str(x)] *)
  fmt_float : time -> string;             (* [format(x, ">14.8")] *)
  mean_val : list time -> time;           (* the value of [statistics.mean] *)
  variance_val : list time -> time;       (* the value of [statistics.variance] *)
  writable : string -> bool               (* [open(path, 'w')] succeeds *)
}.

Section Benchmark.

Context `{Runtime}.

(** The private state of the workload. *)
Context {Heap : Type}.

(** A run record is the tuple [(i + 1, is_warmup, execution_time)]. *)
Definition Run : Type := (Z * bool * time)%type.

Definition run_num (r : Run) : Z := r.1.1.
Definition run_is_warmup (r : Run) : bool := r.1.2.
Definition run_time (r : Run) : time := r.2.

Record World : Type := mkWorld {
  now : time;                   (* what [time.perf_counter()] returns *)
  out : list string;            (* standard output, one entry per [print] *)
  fs : gmap string string;      (* the files, by path *)
  sched : nat -> nat;           (* the thread scheduler's future choices *)
  calls : list nat;             (* ghost: the workers that invoked [f], oldest first *)
  heap : Heap
}.

Inductive Res (A : Type) : Type :=
  | Ok (a : A) (w : World)
  | Raise (e : exn) (w : World).
Arguments Ok {A} a w.
Arguments Raise {A} e w.

Definition M (A : Type) : Type := World -> Res A.

Definition ret {A} (a : A) : M A := fun w => Ok a w.

Definition bind {A B} (m : M A) (k : A -> M B) : M B :=
  fun w => match m w with
           | Ok a w' => k a w'
           | Raise e w' => Raise e w'
           end.

Definition res_world {A} (r : Res A) : World :=
  match r with Ok _ w => w | Raise _ w => w end.

Definition is_ok {A} (r : Res A) : bool :=
  match r with Ok _ _ => true | Raise _ _ => false end.

Local Notation "x <- c ;; k" := (bind c (fun x => k))
  (at level 100, c at next level, right associativity).
Local Notation "c ;;; k" := (bind c (fun _ => k))
  (at level 100, right associativity).

(** *** Primitive effects *)

Definition perf_counter : M time := fun w => Ok (now w) w.

Definition set_out (w : World) (o : list string) : World :=
  mkWorld (now w) o (fs w) (sched w) (calls w) (heap w).

Definition set_fs (w : World) (m : gmap string string) : World :=
  mkWorld (now w) (out w) m (sched w) (calls w) (heap w).

Definition print (s : string) : M unit := fun w =>
  Ok tt (set_out w (out w ++ [s])).

(** [open(path, 'w')]: creates or truncates the file. *)
Definition open_w (path : string) : M unit := fun w =>
  if writable path then Ok tt (set_fs w (<[path := EmptyString]> (fs w)))
  else Raise OSError w.

(** [file.write(s)] on the file opened at [path]. *)
Definition file_write (path : string) (s : string) : M unit := fun w =>
  Ok tt (set_fs w (alter (fun c => c +:+ s) path (fs w))).

(** [statistics.mean] and [statistics.variance] with their documented
    preconditions: at least one, respectively two, data points. *)
Definition mean (xs : list time) : M time := fun w =>
  match xs with
  | [] => Raise StatisticsError w
  | _ => Ok (mean_val xs) w
  end.

Definition variance (xs : list time) : M time := fun w =>
  if (length xs <? 2)%nat then Raise StatisticsError w
  else Ok (variance_val xs) w.

(** [for x in xs: body(x)]. *)
Fixpoint for_each {A} (xs : list A) (body : A -> M unit) : M unit :=
  match xs with
  | [] => ret tt
  | x :: xs' => body x ;;; for_each xs' body
  end.

(** *** The decorator *)

Section Wrapper.
Variable cfg : Config.
(** The decorated function applied to the call's arguments. *)
Variable fun_ : M unit.

Definition verbose_line (title : string) (i n : Z) (t : time) : string :=
  title +:+ " " +:+ str_int (i + 1) +:+ "/" +:+ str_int n +:+ ": "
        +:+ fmt_float t +:+ " s".

(** The loop of [start_runs] over the remaining indices [idx], with the
    list [runs] built so far. *)
Fixpoint runs_loop (n : Z) (is_warmup : bool) (title : string)
         (idx : list Z) (runs : list Run) : M (list Run) :=
  match idx with
  | [] => ret runs
  | i :: idx' =>
      t1 <- perf_counter ;;
      fun_ ;;;
      t2 <- perf_counter ;;
      let execution_time := tsub t2 t1 in
      let runs' := runs ++ [(i + 1, is_warmup, execution_time)] in
      (if verbose cfg then print (verbose_line title i n execution_time)
       else ret tt) ;;;
      runs_loop n is_warmup title idx' runs'
  end.

Definition start_runs (n : Z) (is_warmup : bool) (title : string)
  : M (list Run) :=
  runs_loop n is_warmup title (range n) [].

(** Lines 44-45: the warmup runs, then the standard executions. *)
Definition collect_runs : M (list Run * list Run) :=
  warmup_runs <- start_runs (warmups cfg) true "Warmup round" ;;
  execution_runs <- start_runs (iter cfg) false "Execution round" ;;
  ret (warmup_runs, execution_runs).

Definition csv_header : list string := ["run num"; "is warmup"; "timing"].

(** [",".join(map(str, r))]. *)
Definition csv_row (r : Run) : string :=
  join "," [str_int (run_num r); str_bool (run_is_warmup r);
            str_float (run_time r)].

Definition write_csv (path : string) (all_runs : list Run) : M unit :=
  open_w path ;;;
  file_write path (join "," csv_header +:+ NL) ;;;
  for_each all_runs (fun r => file_write path (csv_row r +:+ NL)).

(** [cols.format(a, b, c, d)] with [cols = "{:>14}{:>14}{:>14.8}{:>14.8}"],
    on the header's four strings and on a statistics row. *)
Definition table_header : string :=
  rjust 14 "is_warmup" +:+ rjust 14 "rounds"
    +:+ rjust_prec 14 8 "mean" +:+ rjust_prec 14 8 "variance".

Definition table_row (is_warmup : bool) (rounds : nat) (m v : time)
  : string :=
  rjust 14 (str_bool is_warmup) +:+ rjust 14 (str_int (Z.of_nat rounds))
    +:+ fmt_float m +:+ fmt_float v.

Definition print_row (is_warmup : bool) (times : list time) : M unit :=
  if (1 <? length times)%nat then
    m <- mean times ;;
    v <- variance times ;;
    print (table_row is_warmup (length times) m v)
  else ret tt.

(** Lines 47-67: the file and the table. *)
Definition report (warmup_runs execution_runs : list Run) : M unit :=
  let all_runs := warmup_runs ++ execution_runs in
  (match csv_file cfg with
   | Some path => write_csv path all_runs
   | None => ret tt
   end) ;;;
  let warmup_times := map run_time warmup_runs in
  let execution_times := map run_time execution_runs in
  print table_header ;;;
  print_row true warmup_times ;;;
  print_row false execution_times.

Definition wrapper : M unit :=
  rs <- collect_runs ;;
  report rs.1 rs.2.

End Wrapper.

(** [benchmark(warmups, iter, verbose, csv_file)(fun)]: the decorator
    factory applied to its keyword arguments and then to the function gives
    the wrapper.  The defaults are [warmups=0, iter=1, verbose=False,
    csv_file=None]. *)
Definition benchmark (warmups iter : Z) (verbose : bool)
  (csv_file : option string) (fun_ : M unit) : M unit :=
  wrapper (mkConfig warmups iter verbose csv_file) fun_.

(** *** The multi-threaded driver *)

Section Driver.
(** The workload [f] and its [__name__]. *)
Variable f : M unit.
Variable f_name : string.
Variable test_iterations : Z.

(** A pool of worker threads is the list of the iterations each worker's
    [repeat_function] loop still has to do.  A worker is runnable while
    that number is positive. *)
Definition runnable (pool : list nat) : list nat :=
  filter (fun tid => bool_decide (0 < default 0 (pool !! tid))%nat)
         (seq 0 (length pool)).

(** The scheduler's next choice among the runnable workers. *)
Definition pick_thread (pool : list nat) (w : World) : option nat :=
  let rs := runnable pool in
  rs !! (sched w 0 mod length rs)%nat.

(** The scheduler moves on; the chosen worker's call of [f] is logged. *)
Definition dispatch (tid : nat) (w : World) : World :=
  mkWorld (now w) (out w) (fs w) (fun k => sched w (Datatypes.S k))
          (calls w ++ [tid]) (heap w).

(** The workers run interleaved, one call of [f] at a time, until none
    is runnable; every interleaving of whole calls is the run under some
    [sched].  Interleaving inside a call is not modelled: the number of
    calls does not depend on it.  An exception in a worker ends that worker
    only: the threading module reports it and the other threads go on.
    [fuel] bounds the number of calls; [experiment] gives one unit per
    iteration of every worker, which is enough ([run_threads_complete]). *)
Fixpoint run_threads (fuel : nat) (pool : list nat) : M (list nat) :=
  fun w =>
    match fuel with
    | O => Ok pool w
    | Datatypes.S fuel' =>
        match pick_thread pool w with
        | None => Ok pool w
        | Some tid =>
            match f (dispatch tid w) with
            | Ok _ w' => run_threads fuel' (alter Nat.pred tid pool) w'
            | Raise _ w' => run_threads fuel' (<[tid := O]> pool) w'
            end
        end
    end.

(** [experiment]: [n_threads] workers, each with [range(n_runs)] to go,
    started and joined. *)
Definition experiment (n_threads n_runs : Z) : M unit :=
  let threads := replicate (Z.to_nat n_threads) (Z.to_nat n_runs) in
  run_threads (Z.to_nat n_threads * Z.to_nat n_runs) threads ;;; ret tt.

Definition csv_name (n_threads n_runs : Z) : string :=
  "f_" +:+ str_int n_threads +:+ "_" +:+ str_int n_runs +:+ ".csv".

Definition run_threaded (n_threads n_runs : Z) : M unit :=
  benchmark 0 test_iterations true (Some (csv_name n_threads n_runs))
            (experiment n_threads n_runs).

(** The banner printed before a configuration, as a function of it. *)
Definition banner (n_threads n_runs : Z) : string :=
  "Testing the function " +:+ f_name +:+ " with " +:+ str_int n_threads
    +:+ (if n_threads =? 1 then " thread and " else " threads and ")
    +:+ str_int n_runs +:+ " runs.".

Definition test : M unit :=
  print ("Testing the function " +:+ f_name +:+ " with 1 thread and 16 runs.") ;;;
  run_threaded 1 16 ;;;
  print ("Testing the function " +:+ f_name +:+ " with 2 threads and 8 runs.") ;;;
  run_threaded 2 8 ;;;
  print ("Testing the function " +:+ f_name +:+ " with 4 threads and 4 runs.") ;;;
  run_threaded 4 4 ;;;
  print ("Testing the function " +:+ f_name +:+ " with 8 threads and 2 runs.") ;;;
  run_threaded 8 2.

End Driver.

(** *** Notions the statements below are phrased in *)

(** The text of [lines], each terminated by a newline. *)
Fixpoint unlines (lines : list string) : string :=
  match lines with
  | [] => EmptyString
  | l :: lines' => l +:+ NL +:+ unlines lines'
  end.

(** The text of the file for the records [all_runs]. *)
Definition csv_text (all_runs : list Run) : string :=
  unlines (join "," csv_header :: map csv_row all_runs).

(** The statistics rows of one phase, and the table for both. *)
Definition phase_rows (is_warmup : bool) (times : list time) : list string :=
  if (1 <? length times)%nat
  then [table_row is_warmup (length times) (mean_val times) (variance_val times)]
  else [].

Definition stats_table (warmup_runs execution_runs : list Run) : list string :=
  table_header :: phase_rows true (map run_time warmup_runs)
               ++ phase_rows false (map run_time execution_runs).

(** Whether the configured file, if any, can be opened for writing, and
    the files after the records [all_runs] were written to it. *)
Definition can_write (cfg : Config) : bool :=
  match csv_file cfg with
  | Some path => writable path
  | None => true
  end.

Definition written (cfg : Config) (all_runs : list Run)
  (files : gmap string string) : gmap string string :=
  match csv_file cfg with
  | Some path => <[path := csv_text all_runs]> files
  | None => files
  end.

(** A table line is the row of a phase when it starts with the phase's flag
    right-aligned in the first column. *)
Definition is_phase_row (is_warmup : bool) (line : string) : bool :=
  String.prefix (rjust 14 (str_bool is_warmup)) line.

(** The workload raises [e] in run [j + 1] of a phase of [n] runs started
    in [w], after [j] runs that returned, and leaves the world [we]. *)
Definition raises_in_run (cfg : Config) (fun_ : M unit) (n : Z)
  (is_warmup : bool) (title : string) (j : nat) (w : World) (e : exn)
  (we : World) : Prop :=
  (Z.of_nat j < n) /\
  exists runs wj,
    runs_loop cfg fun_ n is_warmup title (range (Z.of_nat j)) [] w = Ok runs wj
    /\ fun_ wj = Raise e we.

(** The workload raises [e] in some run of the invocation started in [w]:
    in a warmup run, or in a measured run after all warmup runs returned. *)
Definition raises_during_runs (cfg : Config) (fun_ : M unit) (w : World)
  (e : exn) (we : World) : Prop :=
  (exists j, raises_in_run cfg fun_ (warmups cfg) true "Warmup round" j w e we)
  \/ (exists warmup_runs w1 j,
        start_runs cfg fun_ (warmups cfg) true "Warmup round" w
          = Ok warmup_runs w1
        /\ raises_in_run cfg fun_ (iter cfg) false "Execution round" j w1 e we).

(** The workload never raises. *)
Definition returns (m : M unit) : Prop := forall w, is_ok (m w) = true.

(** The number of workload invocations that [m] issues from [w]. *)
Definition invocations (m : M unit) (w : World) : nat :=
  (length (calls (res_world (m w))) - length (calls w))%nat.

(** The four configurations of [test]: threads and runs per thread. *)
Definition configurations : list (Z * Z) := [(1, 16); (2, 8); (4, 4); (8, 2)].

(** The lines that a phase of [n] runs prints for the records [runs] when
    [verbose] is set. *)
Definition verbose_lines (cfg : Config) (title : string) (n : Z)
  (runs : list Run) : list string :=
  if verbose cfg
  then map (fun r => verbose_line title (run_num r - 1) n (run_time r)) runs
  else [].


(** The workers of a pool that still have iterations to do. *)
Definition pending (pool : list nat) : nat :=
  length (filter (fun k => (0 <? k)%nat = true) pool).

End Benchmark.

Arguments Ok {_ _ _} a w.
Arguments Raise {_ _ _} e w.

(** ** A concrete runtime and concrete workloads

    Clock readings are integer ticks; the workload's private state is a
    counter of its invocations. *)
Module Sample.

Definition rt : Runtime := {|
  time := Z;
  tsub := Z.sub;
  str_float := str_int;
  fmt_float := fun t => rjust 14 (str_int t);
  mean_val := fun ts => fold_right Z.add 0 ts / Z.of_nat (length ts);
  variance_val := fun _ => 0;
  writable := fun path => negb (String.eqb path "/readonly.csv")
|}.

Definition W0 : @World rt nat :=
  @mkWorld rt nat 0 [] ∅ (fun k => k) [] O.

(** A workload that takes five ticks and counts its invocations. *)
Definition tick : @M rt nat unit := fun w =>
  Ok tt (@mkWorld rt nat (now w + 5) (out w) (fs w) (sched w) (calls w)
                 (Datatypes.S (heap w))).

(** A workload that raises on its invocation number [k + 1]. *)
Definition flaky (k : nat) : @M rt nat unit := fun w =>
  if (heap w =? k)%nat
  then Raise (UserError 7)
             (@mkWorld rt nat (now w + 1) (out w) (fs w) (sched w) (calls w)
                      (Datatypes.S (heap w)))
  else tick w.

(** A workload that always raises, and changes nothing. *)
Definition boom : @M rt nat unit := fun w => Raise (UserError 1) w.

(** A runtime in which the first file of the driver cannot be opened. *)
Definition rt_locked : Runtime := {|
  time := Z;
  tsub := Z.sub;
  str_float := str_int;
  fmt_float := fun t => rjust 14 (str_int t);
  mean_val := fun ts => fold_right Z.add 0 ts / Z.of_nat (length ts);
  variance_val := fun _ => 0;
  writable := fun path => negb (String.eqb path "f_1_16.csv")
|}.

Definition W0_locked : @World rt_locked nat :=
  @mkWorld rt_locked nat 0 [] ∅ (fun k => k) [] O.

Definition tick_locked : @M rt_locked nat unit := fun w =>
  Ok tt (@mkWorld rt_locked nat (now w + 5) (out w) (fs w) (sched w) (calls w)
                 (Datatypes.S (heap w))).

End Sample.

(** * Properties *)

(** ** Strings *)

Lemma string_app_cons (a : ascii) (s t : string) :
  String a s +:+ t = String a (s +:+ t).
Proof. reflexivity. Qed.

Lemma string_app_nil_l (s : string) : EmptyString +:+ s = s.
Proof. reflexivity. Qed.

Lemma string_app_nil_r (s : string) : s +:+ EmptyString = s.
Proof. induction s as [|a s IH]; [done|]. by rewrite string_app_cons, IH. Qed.

Lemma string_app_assoc (a b c : string) : (a +:+ b) +:+ c = a +:+ (b +:+ c).
Proof.
  induction a as [|x a IH]; [done|].
  by rewrite !string_app_cons, IH.
Qed.

Lemma no_newline_app (a b : string) :
  no_newline (a +:+ b) = no_newline a && no_newline b.
Proof.
  induction a as [|x a IH]; [done|].
  rewrite string_app_cons. simpl. rewrite IH. by destruct (Ascii.eqb x nl).
Qed.

Lemma splitlines_from_line (cur l rest : string) :
  no_newline l = true ->
  splitlines_from cur (l +:+ NL +:+ rest) = (cur +:+ l) :: splitlines rest.
Proof.
  revert cur. induction l as [|x l IH]; intros cur Hl.
  - rewrite string_app_nil_l, string_app_nil_r. reflexivity.
  - simpl in Hl. apply andb_true_iff in Hl as [Hx Hl].
    rewrite string_app_cons. simpl.
    destruct (Ascii.eqb x nl); [done|].
    rewrite IH by done. by rewrite string_app_assoc.
Qed.

Lemma splitlines_unlines (ls : list string) :
  Forall (fun l => no_newline l = true) ls -> splitlines (unlines ls) = ls.
Proof.
  induction 1 as [|l ls Hl _ IH]; [done|].
  simpl. unfold splitlines at 1.
  rewrite splitlines_from_line by done. by rewrite IH.
Qed.

Lemma no_newline_string_of_uint (d : Decimal.uint) :
  no_newline (NilEmpty.string_of_uint d) = true.
Proof. induction d; simpl; auto. Qed.

Lemma no_newline_str_int (z : Z) : no_newline (str_int z) = true.
Proof.
  unfold str_int, NilZero.string_of_int, NilZero.string_of_uint.
  destruct (Z.to_int z) as [d|d]; destruct d; try reflexivity;
    apply (no_newline_string_of_uint (_ _)) || (simpl; apply no_newline_string_of_uint).
Qed.

Lemma no_newline_str_bool (b : bool) : no_newline (str_bool b) = true.
Proof. by destruct b. Qed.

(** ** The monad and the primitive effects *)

Section Proofs.

Context `{RT : Runtime} {Heap : Type}.

Implicit Types (w : @World RT Heap) (cfg : Config) (f : @M RT Heap unit).
Implicit Types (runs rs : list (@Run RT)) (idx : list Z) (e : exn).

Lemma bind_ok {A B} (m : M A) (k : A -> M B) w a w' :
  m w = Ok a w' -> bind m k w = k a w'.
Proof. unfold bind. by intros ->. Qed.

Lemma bind_raise {A B} (m : M A) (k : A -> M B) w e w' :
  m w = Raise e w' -> bind m k w = Raise e w'.
Proof. unfold bind. by intros ->. Qed.

Lemma bind_inv_ok {A B} (m : M A) (k : A -> M B) w b w' :
  bind m k w = Ok b w' -> exists a w1, m w = Ok a w1 /\ k a w1 = Ok b w'.
Proof. unfold bind. destruct (m w) as [a w1|]; [eauto|done]. Qed.

Lemma returns_ok f w : returns f -> exists w', f w = Ok tt w'.
Proof.
  intros Hf. specialize (Hf w). destruct (f w) as [[] w'|]; [eauto|done].
Qed.

(** ** The loop of [start_runs] *)

Section Loop.

Variable cfg : Config.
Variable fun_ : @M RT Heap unit.
Variables (n : Z) (is_warmup : bool) (title : string).

Local Abbreviation loop := (runs_loop cfg fun_ n is_warmup title).

(** One iteration when the workload returns. *)
Lemma runs_loop_cons_ok i idx runs w w1 :
  fun_ w = Ok tt w1 ->
  loop (i :: idx) runs w =
  loop idx (runs ++ [(i + 1, is_warmup, tsub (now w1) (now w))])
    (if verbose cfg
     then set_out w1 (out w1 ++ [verbose_line title i n (tsub (now w1) (now w))])
     else w1).
Proof.
  intros Hf. simpl. unfold bind, perf_counter. rewrite Hf.
  by destruct (verbose cfg).
Qed.

(** One iteration when the workload raises. *)
Lemma runs_loop_cons_raise i idx runs w e we :
  fun_ w = Raise e we -> loop (i :: idx) runs w = Raise e we.
Proof.
  intros Hf. simpl. unfold bind, perf_counter. by rewrite Hf.
Qed.

Lemma runs_loop_app idx1 idx2 runs w :
  loop (idx1 ++ idx2) runs w =
  bind (loop idx1 runs) (fun rs => loop idx2 rs) w.
Proof.
  revert runs w. induction idx1 as [|i idx1 IH]; intros runs w; [done|].
  rewrite <- app_comm_cons.
  destruct (fun_ w) as [[] w1|e we] eqn:Hf.
  - rewrite (runs_loop_cons_ok _ _ _ _ _ Hf). rewrite IH.
    unfold bind at 2. by rewrite (runs_loop_cons_ok _ _ _ _ _ Hf).
  - rewrite (runs_loop_cons_raise _ _ _ _ _ _ Hf).
    unfold bind. by rewrite (runs_loop_cons_raise _ _ _ _ _ _ Hf).
Qed.

(** The records of a loop that returned: one per index, in order, after
    those it was given. *)
Lemma runs_loop_shape idx runs w rs w' :
  loop idx runs w = Ok rs w' ->
  exists ts, length ts = length idx
             /\ rs = runs ++ zip_with (fun i t => (i + 1, is_warmup, t)) idx ts.
Proof.
  revert runs w. induction idx as [|i idx IH]; intros runs w Hl.
  - injection Hl as <- _. exists []. by rewrite app_nil_r.
  - destruct (fun_ w) as [[] w1|e we] eqn:Hf.
    + rewrite (runs_loop_cons_ok _ _ _ _ _ Hf) in Hl.
      apply IH in Hl as (ts & Hlen & ->).
      exists (tsub (now w1) (now w) :: ts). split; [simpl; lia|].
      by rewrite <- app_assoc.
    + by rewrite (runs_loop_cons_raise _ _ _ _ _ _ Hf) in Hl.
Qed.

(** The loop returns when the workload does. *)
Lemma runs_loop_returns idx runs w :
  returns fun_ -> exists rs w', loop idx runs w = Ok rs w'.
Proof.
  intros Hf. revert runs w. induction idx as [|i idx IH]; intros runs w.
  - by exists runs, w.
  - destruct (returns_ok _ w Hf) as [w1 Hw1].
    rewrite (runs_loop_cons_ok _ _ _ _ _ Hw1). apply IH.
Qed.

(** A raise of the loop is a raise of the workload in one of its runs. *)
Lemma runs_loop_raise_inv idx runs w e we :
  loop idx runs w = Raise e we ->
  exists idx1 i idx2 rs wj,
    idx = idx1 ++ i :: idx2 /\ loop idx1 runs w = Ok rs wj
    /\ fun_ wj = Raise e we.
Proof.
  revert runs w. induction idx as [|i idx IH]; intros runs w Hl; [done|].
  destruct (fun_ w) as [[] w1|e1 w1] eqn:Hf.
  - rewrite (runs_loop_cons_ok _ _ _ _ _ Hf) in Hl.
    apply IH in Hl as (idx1 & i' & idx2 & rs & wj & -> & Hok & Hr).
    exists (i :: idx1), i', idx2, rs, wj. split; [done|]. split; [|done].
    by rewrite (runs_loop_cons_ok _ _ _ _ _ Hf).
  - rewrite (runs_loop_cons_raise _ _ _ _ _ _ Hf) in Hl.
    injection Hl as -> ->.
    by exists [], i, idx, runs, w.
Qed.

(** What the loop leaves untouched when the workload does: any relation
    between worlds that is a preorder and that the workload and [print]
    respect is respected by the loop. *)
Lemma runs_loop_preserves (R : World -> World -> Prop) idx runs w :
  (forall w0, R w0 w0) ->
  (forall w0 w1 w2, R w0 w1 -> R w1 w2 -> R w0 w2) ->
  (forall w0, R w0 (res_world (fun_ w0))) ->
  (forall w0 o, R w0 (set_out w0 o)) ->
  R w (res_world (loop idx runs w)).
Proof.
  intros Hrefl Htrans Hfun Hout. revert runs w.
  induction idx as [|i idx IH]; intros runs w; [apply Hrefl|].
  pose proof (Hfun w) as Hw.
  destruct (fun_ w) as [[] w1|e we] eqn:Hf.
  - rewrite (runs_loop_cons_ok _ _ _ _ _ Hf).
    eapply Htrans; [exact Hw|]. simpl.
    destruct (verbose cfg).
    + eapply Htrans; [apply Hout|apply IH].
    + apply IH.
  - by rewrite (runs_loop_cons_raise _ _ _ _ _ _ Hf).
Qed.

End Loop.

(** ** The phases *)

Lemma start_runs_shape cfg fun_ n is_warmup title w rs w' :
  start_runs cfg fun_ n is_warmup title w = Ok rs w' ->
  exists ts, length ts = Z.to_nat n
             /\ rs = zip_with (fun i t => (i + 1, is_warmup, t)) (range n) ts.
Proof.
  intros Hs. apply runs_loop_shape in Hs as (ts & Hlen & ->).
  exists ts. split; [|done].
  by rewrite Hlen; unfold range; rewrite length_seqZ.
Qed.

Lemma zip_with_run_num is_warmup idx (ts : list time) :
  length ts = length idx ->
  map run_num (zip_with (fun i t => (i + 1, is_warmup, t)) idx ts)
  = map (fun i => i + 1) idx.
Proof.
  revert ts. induction idx as [|i idx IH]; intros [|t ts] Hlen;
    simplify_eq/=; [done|]. by rewrite IH.
Qed.

Lemma zip_with_run_flag is_warmup idx (ts : list time) :
  Forall (fun r => run_is_warmup r = is_warmup)
         (zip_with (fun i t => (i + 1, is_warmup, t)) idx ts).
Proof.
  revert ts. induction idx as [|i idx IH]; intros [|t ts]; simpl; auto.
Qed.

Lemma succ_range n : map (fun i => i + 1) (range n) = seqZ 1 n.
Proof.
  unfold range. change (seqZ 1 n) with (seqZ (1 + 0) n).
  rewrite <- fmap_add_seqZ. apply map_ext. intros i. lia.
Qed.

(** The records of a phase of [n] runs that returned. *)
Lemma start_runs_records cfg fun_ n is_warmup title w rs w' :
  start_runs cfg fun_ n is_warmup title w = Ok rs w' ->
  length rs = Z.to_nat n
  /\ map run_num rs = seqZ 1 n
  /\ Forall (fun r => run_is_warmup r = is_warmup) rs.
Proof.
  intros Hs. apply start_runs_shape in Hs as (ts & Hlen & ->).
  assert (length ts = length (range n)) as Hlen'
    by (by unfold range; rewrite length_seqZ).
  split; [|split].
  - rewrite length_zip_with_l_eq by done.
    by unfold range; rewrite length_seqZ.
  - rewrite zip_with_run_num by done. apply succ_range.
  - apply zip_with_run_flag.
Qed.

(** Both phases return when the workload does. *)
Lemma collect_runs_returns cfg fun_ w :
  returns fun_ ->
  exists warmup_runs execution_runs w1 w2,
    start_runs cfg fun_ (warmups cfg) true "Warmup round" w
      = Ok warmup_runs w1
    /\ start_runs cfg fun_ (iter cfg) false "Execution round" w1
      = Ok execution_runs w2
    /\ collect_runs cfg fun_ w = Ok (warmup_runs, execution_runs) w2.
Proof.
  intros Hf.
  destruct (runs_loop_returns cfg fun_ (warmups cfg) true "Warmup round"
              (range (warmups cfg)) [] w Hf) as (wr & w1 & Hwr).
  destruct (runs_loop_returns cfg fun_ (iter cfg) false "Execution round"
              (range (iter cfg)) [] w1 Hf) as (er & w2 & Her).
  exists wr, er, w1, w2. split; [done|]. split; [done|].
  unfold collect_runs.
  rewrite (bind_ok _ _ _ _ _ Hwr). by rewrite (bind_ok _ _ _ _ _ Her).
Qed.

Lemma collect_runs_inv cfg fun_ w wr er w2 :
  collect_runs cfg fun_ w = Ok (wr, er) w2 ->
  exists w1,
    start_runs cfg fun_ (warmups cfg) true "Warmup round" w = Ok wr w1
    /\ start_runs cfg fun_ (iter cfg) false "Execution round" w1 = Ok er w2.
Proof.
  unfold collect_runs. intros Hc.
  apply bind_inv_ok in Hc as (wr' & w1 & Hwr & Hc).
  apply bind_inv_ok in Hc as (er' & w2' & Her & Hc).
  injection Hc as -> -> ->. eauto.
Qed.

Lemma wrapper_collected cfg fun_ w wr er w1 :
  collect_runs cfg fun_ w = Ok (wr, er) w1 ->
  wrapper cfg fun_ w = report cfg wr er w1.
Proof. intros Hc. unfold wrapper. by rewrite (bind_ok _ _ _ _ _ Hc). Qed.

(** ** The file and the table *)

Lemma set_fs_same w : set_fs w (fs w) = w.
Proof. by destruct w. Qed.

Lemma set_out_same w : set_out w (out w) = w.
Proof. by destruct w. Qed.

Lemma for_each_file_write path (rs : list (@Run RT)) w files content :
  fs w = <[path := content]> files ->
  for_each rs (fun r => file_write path (csv_row r +:+ NL)) w
  = Ok tt (set_fs w (<[path := content +:+ unlines (map csv_row rs)]> files)).
Proof.
  revert w content. induction rs as [|r rs IH]; intros w content Hw.
  - simpl. rewrite string_app_nil_r, <- Hw. by rewrite set_fs_same.
  - cbn [for_each]. unfold bind at 1. unfold file_write at 1.
    set (w1 := set_fs w (alter (fun c => c +:+ csv_row r +:+ NL) path (fs w))).
    assert (fs w1 = <[path := content +:+ csv_row r +:+ NL]> files) as Hw1.
    { subst w1. cbn [fs set_fs]. rewrite Hw.
      apply (alter_insert_eq files path (fun c => c +:+ csv_row r +:+ NL)). }
    rewrite (IH w1 _ Hw1). subst w1. cbn [unlines map].
    by rewrite !string_app_assoc.
Qed.

Lemma write_csv_ok path (rs : list (@Run RT)) w :
  writable path = true ->
  write_csv path rs w = Ok tt (set_fs w (<[path := csv_text rs]> (fs w))).
Proof.
  intros Hp. unfold write_csv, bind, open_w. rewrite Hp.
  unfold file_write at 1.
  rewrite (for_each_file_write path rs _ (fs w) (join "," csv_header +:+ NL)).
  - done.
  - cbn [fs set_fs].
    apply (alter_insert_eq (fs w) path
             (fun c => c +:+ join "," csv_header +:+ NL)).
Qed.

Lemma print_row_ok is_warmup (ts : list time) w :
  print_row is_warmup ts w
  = Ok tt (set_out w (out w ++ phase_rows is_warmup ts)).
Proof.
  unfold print_row, phase_rows.
  destruct (1 <? length ts)%nat eqn:Hlen.
  - apply Nat.ltb_lt in Hlen.
    unfold bind, mean, variance.
    destruct ts as [|t ts]; [simpl in Hlen; lia|].
    destruct (length (t :: ts) <? 2)%nat eqn:Hlt; [|done].
    apply Nat.ltb_lt in Hlt. lia.
  - by rewrite app_nil_r, set_out_same.
Qed.

(** The reporting step returns whenever the file can be written. *)
Lemma report_ok cfg wr er w :
  can_write cfg = true ->
  report cfg wr er w
  = Ok tt (set_out (set_fs w (written cfg (wr ++ er) (fs w)))
                   (out w ++ stats_table wr er)).
Proof.
  intros Hcan. unfold report, can_write, written in *.
  assert (forall w0 : @World RT Heap,
    bind (print table_header) (fun _ =>
      bind (print_row true (map run_time wr)) (fun _ =>
        print_row false (map run_time er))) w0
    = Ok tt (set_out w0 (out w0 ++ stats_table wr er))) as Htable.
  { intros w0. unfold bind, print. rewrite !print_row_ok. simpl.
    unfold stats_table. by rewrite <- !app_assoc. }
  destruct (csv_file cfg) as [path|].
  - unfold bind at 1. rewrite write_csv_ok by done.
    exact (Htable (set_fs w (<[path := csv_text (wr ++ er)]> (fs w)))).
  - unfold bind at 1, ret. rewrite Htable. by rewrite set_fs_same.
Qed.

(** It raises [OSError], before anything is printed or written, otherwise. *)
Lemma report_raise cfg wr er w :
  can_write cfg = false -> report cfg wr er w = Raise OSError w.
Proof.
  unfold report, can_write. destruct (csv_file cfg) as [path|]; [|done].
  intros Hp. unfold bind at 1. unfold write_csv, bind, open_w. by rewrite Hp.
Qed.

(** ** Exceptions of the workload *)

Lemma range_split (n : Z) (j : nat) :
  Z.of_nat j < n ->
  range n = range (Z.of_nat j) ++ Z.of_nat j :: seqZ (Z.of_nat j + 1) (n - Z.of_nat j - 1).
Proof.
  intros Hj. unfold range.
  replace n with (Z.of_nat j + (n - Z.of_nat j)) at 1 by lia.
  rewrite seqZ_app by lia. f_equal.
  rewrite seqZ_cons by lia.
  replace (0 + Z.of_nat j) with (Z.of_nat j) by lia.
  by rewrite <- Z.add_1_r, <- Z.sub_1_r.
Qed.

Lemma start_runs_raise cfg fun_ n is_warmup title j w e we :
  raises_in_run cfg fun_ n is_warmup title j w e we ->
  start_runs cfg fun_ n is_warmup title w = Raise e we.
Proof.
  intros (Hj & runs & wj & Hpre & Hf). unfold start_runs.
  rewrite (range_split n j Hj), runs_loop_app.
  rewrite (bind_ok _ _ _ _ _ Hpre).
  by apply runs_loop_cons_raise.
Qed.

Lemma prefix_of_range (n : Z) idx1 i idx2 :
  range n = idx1 ++ i :: idx2 ->
  idx1 = range (Z.of_nat (length idx1)) /\ Z.of_nat (length idx1) < n.
Proof.
  intros Hr.
  assert (Z.of_nat (length idx1) < n) as Hlt.
  { apply (f_equal length) in Hr. unfold range in Hr.
    rewrite length_seqZ, length_app in Hr. simpl in Hr. lia. }
  split; [|done].
  rewrite (range_split n (length idx1) Hlt) in Hr.
  apply app_inj_1 in Hr as [Hr _]; [done|].
  by unfold range; rewrite length_seqZ, Nat2Z.id.
Qed.

Lemma start_runs_raise_inv cfg fun_ n is_warmup title w e we :
  start_runs cfg fun_ n is_warmup title w = Raise e we ->
  exists j, raises_in_run cfg fun_ n is_warmup title j w e we.
Proof.
  intros Hs. apply runs_loop_raise_inv in Hs
    as (idx1 & i & idx2 & rs & wj & Hidx & Hpre & Hf).
  apply prefix_of_range in Hidx as [Hidx Hlt].
  exists (length idx1). split; [done|]. exists rs, wj.
  by rewrite <- Hidx.
Qed.

(** A raise in a run is a raise of the two phases, and conversely. *)
Lemma collect_runs_raises cfg fun_ w e we :
  raises_during_runs cfg fun_ w e we <-> collect_runs cfg fun_ w = Raise e we.
Proof.
  unfold collect_runs. split.
  - intros [[j Hj]|(wr & w1 & j & Hwr & Hj)].
    + apply start_runs_raise in Hj. by apply bind_raise.
    + apply start_runs_raise in Hj.
      rewrite (bind_ok _ _ _ _ _ Hwr). by apply bind_raise.
  - unfold bind.
    destruct (start_runs cfg fun_ (warmups cfg) true "Warmup round" w)
      as [wr w1|e1 w1] eqn:Hwr.
    + destruct (start_runs cfg fun_ (iter cfg) false "Execution round" w1)
        as [er w2|e2 w2] eqn:Her; [done|].
      intros [= -> ->]. right. exists wr, w1.
      apply start_runs_raise_inv in Her as [j Hj]. eauto.
    + intros [= -> ->]. left. by apply start_runs_raise_inv in Hwr.
Qed.

Lemma wrapper_raises cfg fun_ w e we :
  raises_during_runs cfg fun_ w e we -> wrapper cfg fun_ w = Raise e we.
Proof.
  intros Hr. apply collect_runs_raises in Hr. by apply bind_raise.
Qed.

(** Every exception of the wrapper comes from the workload or from
    opening the file. *)
Lemma wrapper_raise_inv cfg fun_ w e we :
  wrapper cfg fun_ w = Raise e we ->
  raises_during_runs cfg fun_ w e we
  \/ (e = OSError /\ can_write cfg = false
      /\ exists wr er, collect_runs cfg fun_ w = Ok (wr, er) we).
Proof.
  unfold wrapper, bind.
  destruct (collect_runs cfg fun_ w) as [[wr er] w1|e1 w1] eqn:Hc.
  - simpl. destruct (can_write cfg) eqn:Hcan.
    + by rewrite report_ok.
    + rewrite report_raise by done. intros [= <- <-]. right. eauto.
  - intros [= -> ->]. left. by apply collect_runs_raises.
Qed.

(** What both phases leave untouched when the workload does. *)
Lemma collect_runs_preserves cfg fun_ (R : World -> World -> Prop) w :
  (forall w0, R w0 w0) ->
  (forall w0 w1 w2, R w0 w1 -> R w1 w2 -> R w0 w2) ->
  (forall w0, R w0 (res_world (fun_ w0))) ->
  (forall w0 o, R w0 (set_out w0 o)) ->
  R w (res_world (collect_runs cfg fun_ w)).
Proof.
  intros Hrefl Htrans Hfun Hout.
  pose proof (runs_loop_preserves cfg fun_ (warmups cfg) true "Warmup round"
                R (range (warmups cfg)) [] w Hrefl Htrans Hfun Hout) as H1.
  unfold collect_runs, bind. fold (start_runs cfg fun_ (warmups cfg) true "Warmup round" w) in H1.
  destruct (start_runs cfg fun_ (warmups cfg) true "Warmup round" w)
    as [wr w1|e1 w1]; [|done].
  pose proof (runs_loop_preserves cfg fun_ (iter cfg) false "Execution round"
                R (range (iter cfg)) [] w1 Hrefl Htrans Hfun Hout) as H2.
  fold (start_runs cfg fun_ (iter cfg) false "Execution round" w1) in H2.
  destruct (start_runs cfg fun_ (iter cfg) false "Execution round" w1)
    as [er w2|e2 w2]; simpl in *; eauto.
Qed.

(** ** The worker threads *)

Lemma sum_list_alter_pred (pool : list nat) tid k :
  pool !! tid = Some (Datatypes.S k) ->
  Datatypes.S (sum_list (alter Nat.pred tid pool)) = sum_list pool.
Proof.
  revert tid. induction pool as [|x pool IH]; intros [|tid] Hp;
    simplify_eq/=; [done|].
  rewrite <- (IH tid Hp). unfold id. lia.
Qed.

Lemma sum_list_insert_zero (pool : list nat) tid k :
  pool !! tid = Some (Datatypes.S k) ->
  (sum_list (<[tid := O]> pool) < sum_list pool)%nat.
Proof.
  revert tid. induction pool as [|x pool IH]; intros [|tid] Hp;
    simplify_eq/=; [unfold id; lia|].
  specialize (IH tid Hp). lia.
Qed.

Lemma all_done_replicate (pool : list nat) :
  (forall tid, default O (pool !! tid) = O) ->
  pool = replicate (length pool) O.
Proof.
  induction pool as [|x pool IH]; intros Hz; [done|].
  simpl. f_equal.
  - exact (Hz O).
  - apply IH. intros tid. exact (Hz (Datatypes.S tid)).
Qed.

Lemma sum_list_zero (pool : list nat) :
  sum_list pool = O -> pool = replicate (length pool) O.
Proof.
  intros Hs. apply all_done_replicate. intros tid.
  destruct (pool !! tid) as [x|] eqn:Hx; [|done].
  apply list_elem_of_lookup_2, (sum_list_with_in _ id) in Hx.
  rewrite Hs in Hx. simpl. unfold id in Hx. lia.
Qed.

Lemma runnable_elem (pool : list nat) tid :
  tid ∈ runnable pool -> exists k, pool !! tid = Some (Datatypes.S k).
Proof.
  unfold runnable. rewrite list_elem_of_filter, bool_decide_spec.
  intros [Hpos _]. destruct (pool !! tid) as [[|k]|]; simpl in Hpos;
    [lia|eauto|lia].
Qed.

Lemma runnable_nil (pool : list nat) :
  runnable pool = [] -> pool = replicate (length pool) O.
Proof.
  intros Hr. apply all_done_replicate. intros tid.
  destruct (pool !! tid) as [[|k]|] eqn:Hx; [done| |done].
  exfalso. eapply (filter_nil_not_elem_of _ _ tid Hr).
  - rewrite bool_decide_spec, Hx. simpl. lia.
  - apply elem_of_seq. apply lookup_lt_Some in Hx. lia.
Qed.

Lemma pick_thread_Some (pool : list nat) w tid :
  pick_thread pool w = Some tid ->
  exists k, pool !! tid = Some (Datatypes.S k).
Proof.
  unfold pick_thread. intros Hp.
  by apply list_elem_of_lookup_2, runnable_elem in Hp.
Qed.

Lemma pick_thread_None (pool : list nat) w :
  pick_thread pool w = None -> pool = replicate (length pool) O.
Proof.
  unfold pick_thread. intros Hp. apply runnable_nil.
  destruct (runnable pool) as [|r rs] eqn:Hr; [done|].
  apply lookup_ge_None in Hp.
  pose proof (Nat.mod_upper_bound (sched w 0%nat) (length (r :: rs))) as Hb.
  simpl in *. lia.
Qed.

Section Threads.

Variable f : @M RT Heap unit.

(** With fuel for every remaining iteration, the workers all finish,
    whatever the workload does. *)
Lemma run_threads_complete fuel (pool : list nat) w :
  (sum_list pool <= fuel)%nat ->
  exists w', run_threads f fuel pool w = Ok (replicate (length pool) O) w'.
Proof.
  revert pool w. induction fuel as [|fuel IH]; intros pool w Hfuel.
  - exists w. simpl. f_equal. apply sum_list_zero. lia.
  - simpl. destruct (pick_thread pool w) as [tid|] eqn:Hpick.
    + apply pick_thread_Some in Hpick as [k Hk].
      destruct (f (dispatch tid w)) as [[] w1|e w1].
      * destruct (IH (alter Nat.pred tid pool) w1) as [w' Hw'].
        { pose proof (sum_list_alter_pred pool tid k Hk). lia. }
        exists w'. by rewrite Hw', length_alter.
      * destruct (IH (<[tid := O]> pool) w1) as [w' Hw'].
        { pose proof (sum_list_insert_zero pool tid k Hk). lia. }
        exists w'. by rewrite Hw', length_insert.
    + exists w. f_equal. by apply pick_thread_None in Hpick.
Qed.

Lemma experiment_returns n_threads n_runs : returns (experiment f n_threads n_runs).
Proof.
  intros w. unfold experiment, bind.
  destruct (run_threads_complete (Z.to_nat n_threads * Z.to_nat n_runs)
              (replicate (Z.to_nat n_threads) (Z.to_nat n_runs)) w) as [w' ->];
    [|done].
  by rewrite sum_list_replicate.
Qed.

Hypothesis f_returns : returns f.
Hypothesis f_keeps_log : forall w, calls (res_world (f w)) = calls w.

(** When the workload returns, every worker calls it once per iteration of
    its loop. *)
Lemma run_threads_calls fuel (pool : list nat) w :
  (sum_list pool <= fuel)%nat ->
  exists w' log,
    run_threads f fuel pool w = Ok (replicate (length pool) O) w'
    /\ calls w' = calls w ++ log
    /\ length log = sum_list pool
    /\ forall tid, count_occ Nat.eq_dec log tid = default O (pool !! tid).
Proof.
  revert pool w. induction fuel as [|fuel IH]; intros pool w Hfuel.
  - exists w, []. simpl.
    assert (pool = replicate (length pool) O) as Hz by (apply sum_list_zero; lia).
    split; [by f_equal|]. split; [by rewrite app_nil_r|]. split; [lia|].
    intros tid. rewrite Hz. destruct (decide (tid < length pool)%nat).
    + by rewrite lookup_replicate_2.
    + by rewrite (proj1 (lookup_replicate_None _ _ _)) by lia.
  - simpl. destruct (pick_thread pool w) as [tid|] eqn:Hpick.
    + apply pick_thread_Some in Hpick as [k Hk].
      destruct (returns_ok f (dispatch tid w) f_returns) as [w1 Hw1].
      pose proof (f_keeps_log (dispatch tid w)) as Hlog.
      rewrite Hw1 in Hlog |- *. simpl in Hlog.
      pose proof (sum_list_alter_pred pool tid k Hk) as Hsum.
      destruct (IH (alter Nat.pred tid pool) w1) as (w' & log & Hrun & Hc & Hlen & Hcnt);
        [lia|].
      exists w', (tid :: log). rewrite Hrun, length_alter.
      split; [done|]. split; [by rewrite Hc, Hlog, <- app_assoc|].
      split; [simpl; lia|].
      intros tid'. simpl. rewrite Hcnt.
      destruct (Nat.eq_dec tid tid') as [<-|Hne].
      * by rewrite list_lookup_alter_eq, Hk.
      * by rewrite list_lookup_alter_ne.
    + exists w, []. apply pick_thread_None in Hpick as Hz.
      split; [by f_equal|]. split; [by rewrite app_nil_r|].
      split; [rewrite Hz, sum_list_replicate; simpl; lia|].
      intros tid. rewrite Hz. destruct (decide (tid < length pool)%nat).
      * by rewrite lookup_replicate_2.
      * by rewrite (proj1 (lookup_replicate_None _ _ _)) by lia.
Qed.

Lemma experiment_calls n_threads n_runs w :
  exists w' log,
    experiment f n_threads n_runs w = Ok tt w'
    /\ calls w' = calls w ++ log
    /\ length log = (Z.to_nat n_threads * Z.to_nat n_runs)%nat
    /\ forall tid, count_occ Nat.eq_dec log tid
                   = if (tid <? Z.to_nat n_threads)%nat then Z.to_nat n_runs
                     else O.
Proof.
  destruct (run_threads_calls (Z.to_nat n_threads * Z.to_nat n_runs)
              (replicate (Z.to_nat n_threads) (Z.to_nat n_runs)) w)
    as (w' & log & Hrun & Hc & Hlen & Hcnt).
  { by rewrite sum_list_replicate. }
  exists w', log. unfold experiment, bind. rewrite Hrun.
  split; [done|]. split; [done|].
  split; [by rewrite Hlen, sum_list_replicate|].
  intros tid. rewrite Hcnt.
  destruct (tid <? Z.to_nat n_threads)%nat eqn:Hlt.
  - apply Nat.ltb_lt in Hlt. by rewrite lookup_replicate_2.
  - apply Nat.ltb_ge in Hlt.
    by rewrite (proj1 (lookup_replicate_None _ _ _)).
Qed.

End Threads.

(** ** Counting the workload's invocations *)

Lemma runs_loop_calls cfg fun_ n is_warmup title (c : nat) idx runs w :
  (forall w0, exists w1, fun_ w0 = Ok tt w1
                         /\ length (calls w1) = (length (calls w0) + c)%nat) ->
  exists rs w',
    runs_loop cfg fun_ n is_warmup title idx runs w = Ok rs w'
    /\ length (calls w') = (length (calls w) + c * length idx)%nat.
Proof.
  intros Hf. revert runs w. induction idx as [|i idx IH]; intros runs w.
  - exists runs, w. split; [done|]. simpl. lia.
  - destruct (Hf w) as (w1 & Hw1 & Hc1).
    rewrite (runs_loop_cons_ok _ _ _ _ _ _ _ _ _ _ Hw1).
    match goal with |- context [runs_loop _ _ _ _ _ idx ?r ?w2] =>
      destruct (IH r w2) as (rs & w' & Hrs & Hc) end.
    exists rs, w'. split; [done|]. rewrite Hc.
    replace (length (calls (if verbose cfg then _ else w1)))
      with (length (calls w1)) by (by destruct (verbose cfg)).
    simpl. lia.
Qed.

Lemma report_calls cfg wr er w :
  calls (res_world (report cfg wr er w)) = calls w.
Proof.
  destruct (can_write cfg) eqn:Hcan.
  - by rewrite report_ok.
  - by rewrite report_raise.
Qed.

(** A wrapper around a workload that logs [c] calls per execution logs
    [c] calls per run. *)
Lemma wrapper_invocations cfg fun_ (c : nat) w :
  (forall w0, exists w1, fun_ w0 = Ok tt w1
                         /\ length (calls w1) = (length (calls w0) + c)%nat) ->
  invocations (wrapper cfg fun_) w
  = (c * (Z.to_nat (warmups cfg) + Z.to_nat (iter cfg)))%nat.
Proof.
  intros Hf.
  destruct (runs_loop_calls cfg fun_ (warmups cfg) true "Warmup round" c
              (range (warmups cfg)) [] w Hf) as (wr & w1 & Hwr & Hc1).
  destruct (runs_loop_calls cfg fun_ (iter cfg) false "Execution round" c
              (range (iter cfg)) [] w1 Hf) as (er & w2 & Her & Hc2).
  unfold invocations, wrapper, collect_runs, start_runs.
  rewrite (bind_ok _ _ _ (wr, er) w2).
  - simpl. rewrite report_calls, Hc2, Hc1.
    unfold range. rewrite !length_seqZ. lia.
  - rewrite (bind_ok _ _ _ _ _ Hwr). by rewrite (bind_ok _ _ _ _ _ Her).
Qed.

(** ** The driver *)

Lemma bind_ret_tt (m : @M RT Heap unit) w : bind m (fun _ => ret tt) w = m w.
Proof. unfold bind, ret. by destruct (m w) as [[] w'|]. Qed.

Lemma bind_assoc {A B C} (m : @M RT Heap A) (k : A -> M B) (h : B -> M C) w :
  bind (bind m k) h w = bind m (fun a => bind (k a) h) w.
Proof. unfold bind. by destruct (m w). Qed.

Lemma bind_ext {A B} (m : @M RT Heap A) (k1 k2 : A -> M B) w :
  (forall a w', k1 a w' = k2 a w') -> bind m k1 w = bind m k2 w.
Proof. intros Hk. unfold bind. by destruct (m w). Qed.

(** [test] runs the four configurations in order, each after its banner. *)
Lemma test_configurations f f_name test_iterations w :
  test f f_name test_iterations w
  = for_each configurations
      (fun c => bind (print (banner f_name c.1 c.2))
                     (fun _ => run_threaded f test_iterations c.1 c.2)) w.
Proof.
  unfold test, configurations. cbn [for_each fst snd].
  do 3 (rewrite bind_assoc;
        apply bind_ext; intros _ ?w; apply bind_ext; intros _ ?w).
  by rewrite bind_ret_tt.
Qed.

(** ** Rows of the file and of the table *)

Lemma csv_row_fields (r : @Run RT) :
  csv_row r = str_int (run_num r) +:+ "," +:+ str_bool (run_is_warmup r)
                +:+ "," +:+ str_float (run_time r).
Proof. reflexivity. Qed.

Lemma no_newline_csv_row (r : @Run RT) :
  (forall t, no_newline (str_float t) = true) -> no_newline (csv_row r) = true.
Proof.
  intros Hfloat. rewrite csv_row_fields, !no_newline_app.
  by rewrite no_newline_str_int, no_newline_str_bool, Hfloat.
Qed.

(** Reading the file back gives the header and one line per record. *)
Lemma splitlines_csv_text (rs : list (@Run RT)) :
  (forall t, no_newline (str_float t) = true) ->
  splitlines (csv_text rs) = "run num,is warmup,timing" :: map csv_row rs.
Proof.
  intros Hfloat. unfold csv_text. rewrite splitlines_unlines; [done|].
  constructor; [done|].
  induction rs as [|r rs IH]; constructor; [|done].
  by apply no_newline_csv_row.
Qed.

Lemma string_prefix_app (p s : string) : String.prefix p (p +:+ s) = true.
Proof.
  induction p as [|a p IH]; [by destruct s|].
  rewrite string_app_cons. simpl. by destruct (ascii_dec a a).
Qed.

Lemma is_phase_row_table_row (b b' : bool) (rounds : nat) (m v : time) :
  is_phase_row b (table_row b' rounds m v) = Bool.eqb b b'.
Proof.
  unfold is_phase_row, table_row.
  generalize (rjust 14 (str_int (Z.of_nat rounds)) +:+ fmt_float m +:+ fmt_float v).
  intros rest. destruct b, b'; try apply string_prefix_app; reflexivity.
Qed.

Lemma is_phase_row_header (b : bool) : is_phase_row b table_header = false.
Proof. by destruct b. Qed.

Lemma phase_rows_exists (b b' : bool) (ts : list time) :
  existsb (is_phase_row b) (phase_rows b' ts)
  = Bool.eqb b b' && (1 <? length ts)%nat.
Proof.
  unfold phase_rows. destruct (1 <? length ts)%nat; simpl.
  - by rewrite is_phase_row_table_row, orb_false_r, andb_true_r.
  - by rewrite andb_false_r.
Qed.

(** The table has a row for a phase exactly when the phase has at least
    two records. *)
Lemma stats_table_row (b : bool) (wr er : list (@Run RT)) :
  existsb (is_phase_row b) (stats_table wr er)
  = (1 <? length (if b then wr else er))%nat.
Proof.
  unfold stats_table. cbn [existsb].
  rewrite is_phase_row_header, existsb_app, !phase_rows_exists, !length_map.
  by destruct b; simpl; rewrite ?orb_false_r.
Qed.

(** ** A complete invocation *)

(** When the workload returns and the file can be written, the invocation
    returns: its records, file and output. *)
Lemma wrapper_returns cfg fun_ w :
  returns fun_ -> can_write cfg = true ->
  exists warmup_runs execution_runs w1 w2,
    start_runs cfg fun_ (warmups cfg) true "Warmup round" w
      = Ok warmup_runs w1
    /\ start_runs cfg fun_ (iter cfg) false "Execution round" w1
      = Ok execution_runs w2
    /\ collect_runs cfg fun_ w = Ok (warmup_runs, execution_runs) w2
    /\ wrapper cfg fun_ w
       = Ok tt (set_out
                  (set_fs w2 (written cfg (warmup_runs ++ execution_runs) (fs w2)))
                  (out w2 ++ stats_table warmup_runs execution_runs)).
Proof.
  intros Hf Hcan.
  destruct (collect_runs_returns cfg fun_ w Hf)
    as (wr & er & w1 & w2 & Hwr & Her & Hc).
  exists wr, er, w1, w2. repeat split; try done.
  rewrite (wrapper_collected _ _ _ _ _ _ Hc). by apply report_ok.
Qed.

(** The file of a complete invocation. *)
Lemma wrapper_file cfg fun_ path w :
  csv_file cfg = Some path -> writable path = true -> returns fun_ ->
  exists warmup_runs execution_runs w1 w',
    collect_runs cfg fun_ w = Ok (warmup_runs, execution_runs) w1
    /\ wrapper cfg fun_ w = Ok tt w'
    /\ fs w' !! path = Some (csv_text (warmup_runs ++ execution_runs))
    /\ length warmup_runs = Z.to_nat (warmups cfg)
    /\ length execution_runs = Z.to_nat (iter cfg).
Proof.
  intros Hpath Hwritable Hf.
  assert (can_write cfg = true) as Hcan
    by (by unfold can_write; rewrite Hpath).
  destruct (wrapper_returns cfg fun_ w Hf Hcan)
    as (wr & er & w1 & w2 & Hwr & Her & Hc & Hwrap).
  destruct (start_runs_records _ _ _ _ _ _ _ _ Hwr) as (Hlw & _).
  destruct (start_runs_records _ _ _ _ _ _ _ _ Her) as (Hle & _).
  eexists wr, er, w2, _.
  split; [done|]. split; [exact Hwrap|].
  split; [|done].
  unfold written. rewrite Hpath. cbn [fs set_out set_fs].
  apply lookup_insert_eq.
Qed.

(** * The claims of the specification *)

(** C1.  For a configuration with [warmups >= 0] and [iter >= 0] and a
    workload that returns, one invocation of the wrapper produces exactly
    [warmups + iter] run records: the warmup phase runs first and gives the
    first [warmups] of them, all flagged as warmup, the measured phase
    follows from the world the warmup phase left and gives the other
    [iter], none flagged, and in each phase the run numbers are
    1, 2, 3, ... in order. *)
Theorem C1_run_records cfg fun_ w :
  0 <= warmups cfg -> 0 <= iter cfg -> returns fun_ ->
  exists warmup_runs execution_runs w1 w2,
    start_runs cfg fun_ (warmups cfg) true "Warmup round" w
      = Ok warmup_runs w1
    /\ start_runs cfg fun_ (iter cfg) false "Execution round" w1
      = Ok execution_runs w2
    /\ wrapper cfg fun_ w = report cfg warmup_runs execution_runs w2
    /\ length (warmup_runs ++ execution_runs)
       = Z.to_nat (warmups cfg + iter cfg)
    /\ take (Z.to_nat (warmups cfg)) (warmup_runs ++ execution_runs)
       = warmup_runs
    /\ drop (Z.to_nat (warmups cfg)) (warmup_runs ++ execution_runs)
       = execution_runs
    /\ Forall (fun r => run_is_warmup r = true) warmup_runs
    /\ Forall (fun r => run_is_warmup r = false) execution_runs
    /\ map run_num warmup_runs = seqZ 1 (warmups cfg)
    /\ map run_num execution_runs = seqZ 1 (iter cfg).
Proof.
  intros Hw Hk Hf.
  destruct (collect_runs_returns cfg fun_ w Hf)
    as (wr & er & w1 & w2 & Hwr & Her & Hc).
  destruct (start_runs_records _ _ _ _ _ _ _ _ Hwr) as (Hlw & Hnw & Hfw).
  destruct (start_runs_records _ _ _ _ _ _ _ _ Her) as (Hle & Hne & Hfe).
  exists wr, er, w1, w2.
  split; [done|]. split; [done|].
  split; [by apply wrapper_collected|].
  split; [rewrite length_app, Hlw, Hle; lia|].
  split; [by rewrite take_app_length' by done|].
  split; [by rewrite drop_app_length' by done|].
  done.
Qed.

(** C2.  With an output path that can be written and a workload that
    returns, the invocation returns and leaves at that path a text whose
    lines are the header [run num,is warmup,timing] followed by one row per
    run record, warmup records first, in execution order; a row is the run
    number, [True] or [False], and the duration, separated by commas; so
    the file has [1 + warmups + iter] lines. *)
Theorem C2_csv_file cfg fun_ path w :
  csv_file cfg = Some path -> writable path = true ->
  (forall t, no_newline (str_float t) = true) ->
  0 <= warmups cfg -> 0 <= iter cfg -> returns fun_ ->
  exists warmup_runs execution_runs w1 w' content,
    collect_runs cfg fun_ w = Ok (warmup_runs, execution_runs) w1
    /\ wrapper cfg fun_ w = Ok tt w'
    /\ fs w' !! path = Some content
    /\ splitlines content
       = "run num,is warmup,timing"
           :: map csv_row (warmup_runs ++ execution_runs)
    /\ (forall r : Run,
          csv_row r = str_int (run_num r) +:+ "," +:+ str_bool (run_is_warmup r)
                        +:+ "," +:+ str_float (run_time r))
    /\ length warmup_runs = Z.to_nat (warmups cfg)
    /\ Forall (fun r => run_is_warmup r = true) warmup_runs
    /\ Forall (fun r => run_is_warmup r = false) execution_runs
    /\ length (splitlines content) = Z.to_nat (1 + warmups cfg + iter cfg).
Proof.
  intros Hpath Hwritable Hfloat Hw Hk Hf.
  assert (can_write cfg = true) as Hcan
    by (by unfold can_write; rewrite Hpath).
  destruct (wrapper_returns cfg fun_ w Hf Hcan)
    as (wr & er & w1 & w2 & Hwr & Her & Hc & Hwrap).
  destruct (start_runs_records _ _ _ _ _ _ _ _ Hwr) as (Hlw & _ & Hfw).
  destruct (start_runs_records _ _ _ _ _ _ _ _ Her) as (Hle & _ & Hfe).
  eexists wr, er, w2, _, (csv_text (wr ++ er)).
  split; [done|]. split; [exact Hwrap|].
  split; [unfold written; rewrite Hpath; cbn [fs set_out set_fs];
          apply lookup_insert_eq|].
  split; [by apply splitlines_csv_text|].
  split; [apply csv_row_fields|].
  split; [done|]. split; [done|]. split; [done|].
  rewrite splitlines_csv_text by done.
  cbn [length]. rewrite length_map, length_app, Hlw, Hle. lia.
Qed.

(** C3.  When the invocation completes, the lines printed after the runs
    are the table header and then the rows; there is a row for a phase if
    and only if the phase has at least two records. *)
Theorem C3_table_rows cfg fun_ w :
  returns fun_ -> can_write cfg = true ->
  exists warmup_runs execution_runs w1 w' rows,
    collect_runs cfg fun_ w = Ok (warmup_runs, execution_runs) w1
    /\ wrapper cfg fun_ w = Ok tt w'
    /\ out w' = out w1 ++ table_header :: rows
    /\ rows = phase_rows true (map run_time warmup_runs)
              ++ phase_rows false (map run_time execution_runs)
    /\ length warmup_runs = Z.to_nat (warmups cfg)
    /\ length execution_runs = Z.to_nat (iter cfg)
    /\ (existsb (is_phase_row true) rows = true <-> 2 <= warmups cfg)
    /\ (existsb (is_phase_row false) rows = true <-> 2 <= iter cfg).
Proof.
  intros Hf Hcan.
  destruct (wrapper_returns cfg fun_ w Hf Hcan)
    as (wr & er & w1 & w2 & Hwr & Her & Hc & Hwrap).
  destruct (start_runs_records _ _ _ _ _ _ _ _ Hwr) as (Hlw & _).
  destruct (start_runs_records _ _ _ _ _ _ _ _ Her) as (Hle & _).
  eexists wr, er, w2, _, _.
  split; [done|]. split; [exact Hwrap|].
  split; [reflexivity|]. split; [reflexivity|].
  split; [done|]. split; [done|].
  pose proof (stats_table_row true wr er) as Ht.
  pose proof (stats_table_row false wr er) as Hm.
  unfold stats_table in Ht, Hm. cbn [existsb] in Ht, Hm.
  rewrite is_phase_row_header in Ht, Hm. cbn [orb] in Ht, Hm.
  rewrite Ht, Hm, Hlw, Hle.
  split; rewrite Nat.ltb_lt; lia.
Qed.

(** C5.  Two consecutive invocations with the same output path: the
    second replaces the file.  Its text is the text for the records of the
    second invocation alone, and it has as many lines as the file had
    after the first. *)
Theorem C5_overwrite cfg fun_ path w :
  csv_file cfg = Some path -> writable path = true ->
  (forall t, no_newline (str_float t) = true) ->
  returns fun_ ->
  exists w1 warmup_runs execution_runs wm w2 first last,
    wrapper cfg fun_ w = Ok tt w1
    /\ fs w1 !! path = Some first
    /\ collect_runs cfg fun_ w1 = Ok (warmup_runs, execution_runs) wm
    /\ wrapper cfg fun_ w1 = Ok tt w2
    /\ fs w2 !! path = Some last
    /\ last = csv_text (warmup_runs ++ execution_runs)
    /\ length (splitlines last) = length (splitlines first).
Proof.
  intros Hpath Hwritable Hfloat Hf.
  destruct (wrapper_file cfg fun_ path w Hpath Hwritable Hf)
    as (wr1 & er1 & wm1 & w1 & _ & Hwrap1 & Hfs1 & Hlw1 & Hle1).
  destruct (wrapper_file cfg fun_ path w1 Hpath Hwritable Hf)
    as (wr2 & er2 & wm2 & w2 & Hc2 & Hwrap2 & Hfs2 & Hlw2 & Hle2).
  exists w1, wr2, er2, wm2, w2, (csv_text (wr1 ++ er1)), (csv_text (wr2 ++ er2)).
  repeat (split; [done|]).
  rewrite !splitlines_csv_text by done. cbn [length].
  rewrite !length_map, !length_app. lia.
Qed.

(** C6.  With [iter = 0] the invocation of a workload that returns
    completes, with no measured record and no measured row in the table.
    In general the guarded statistics step returns on every list of
    durations and does nothing on fewer than two, so an exception of the
    wrapper is never the statistics module's: it is [OSError] for a path
    that cannot be opened, or it was raised by the workload. *)
Theorem C6_no_statistics_fault cfg fun_ w :
  (iter cfg = 0 -> returns fun_ -> can_write cfg = true ->
   exists warmup_runs w1 w',
     collect_runs cfg fun_ w = Ok (warmup_runs, []) w1
     /\ wrapper cfg fun_ w = Ok tt w'
     /\ out w' = out w1 ++ stats_table warmup_runs []
     /\ existsb (is_phase_row false) (stats_table warmup_runs []) = false)
  /\ (forall is_warmup (times : list time) w0,
        is_ok (print_row is_warmup times w0) = true
        /\ ((length times < 2)%nat -> print_row is_warmup times w0 = Ok tt w0))
  /\ (forall e we,
        wrapper cfg fun_ w = Raise e we ->
        (e = OSError /\ can_write cfg = false)
        \/ exists w0, fun_ w0 = Raise e we).
Proof.
  split; [|split].
  - intros Hk Hf Hcan.
    destruct (wrapper_returns cfg fun_ w Hf Hcan)
      as (wr & er & w1 & w2 & Hwr & Her & Hc & Hwrap).
    destruct (start_runs_records _ _ _ _ _ _ _ _ Her) as (Hle & _).
    rewrite Hk in Hle. destruct er as [|r er]; [|done].
    eexists wr, w2, _. split; [done|]. split; [exact Hwrap|].
    split; [done|]. by rewrite stats_table_row.
  - intros is_warmup times w0. rewrite print_row_ok. split; [done|].
    intros Hlen. unfold phase_rows.
    destruct (1 <? length times)%nat eqn:Hlt; [apply Nat.ltb_lt in Hlt; lia|].
    by rewrite app_nil_r, set_out_same.
  - intros e we Hwrap.
    apply wrapper_raise_inv in Hwrap as [Hr|(-> & Hcan & _)]; [|by left].
    right. destruct Hr as [[j Hj]|(wr & w1 & j & _ & Hj)];
      destruct Hj as (_ & runs & wj & _ & Hraise); eauto.
Qed.

(** C7.  If the workload raises in any run of the invocation, the wrapper
    raises the same exception, and the world it leaves is the one the
    failing call left: no further run, print or write takes place. *)
Theorem C7_exception_propagates cfg fun_ w e we :
  raises_during_runs cfg fun_ w e we ->
  wrapper cfg fun_ w = Raise e we.
Proof. apply wrapper_raises. Qed.

(** C9.  When the invocation completes, the first line printed after the
    runs is the header with the titles is_warmup, rounds, mean, variance,
    whatever the numbers of records; with at most one record in each phase
    no row follows it. *)
Theorem C9_header_always cfg fun_ w :
  returns fun_ -> can_write cfg = true ->
  exists warmup_runs execution_runs w1 w' rows,
    collect_runs cfg fun_ w = Ok (warmup_runs, execution_runs) w1
    /\ wrapper cfg fun_ w = Ok tt w'
    /\ out w' = out w1 ++ table_header :: rows
    /\ table_header
       = "     is_warmup        rounds          mean      variance"
    /\ (warmups cfg <= 1 -> iter cfg <= 1 -> rows = []).
Proof.
  intros Hf Hcan.
  destruct (wrapper_returns cfg fun_ w Hf Hcan)
    as (wr & er & w1 & w2 & Hwr & Her & Hc & Hwrap).
  destruct (start_runs_records _ _ _ _ _ _ _ _ Hwr) as (Hlw & _).
  destruct (start_runs_records _ _ _ _ _ _ _ _ Her) as (Hle & _).
  eexists wr, er, w2, _, _.
  split; [done|]. split; [exact Hwrap|].
  split; [reflexivity|]. split; [reflexivity|].
  intros Hw Hk. unfold phase_rows. rewrite !length_map, Hlw, Hle.
  destruct (1 <? Z.to_nat (warmups cfg))%nat eqn:H1;
    [apply Nat.ltb_lt in H1; lia|].
  destruct (1 <? Z.to_nat (iter cfg))%nat eqn:H2;
    [apply Nat.ltb_lt in H2; lia|].
  done.
Qed.

(** C10.  For a workload that leaves the output file alone: when all runs
    have returned the file is still as it was before the invocation, so it
    is written only after them; and if the workload raises in any run, the
    wrapper raises and the file is as it was, neither created nor
    modified. *)
Theorem C10_file_untouched_on_error cfg fun_ path w :
  csv_file cfg = Some path ->
  (forall w0, fs (res_world (fun_ w0)) !! path = fs w0 !! path) ->
  (forall warmup_runs execution_runs w1,
     collect_runs cfg fun_ w = Ok (warmup_runs, execution_runs) w1 ->
     fs w1 !! path = fs w !! path)
  /\ (forall e we,
        raises_during_runs cfg fun_ w e we ->
        wrapper cfg fun_ w = Raise e we /\ fs we !! path = fs w !! path).
Proof.
  intros _ Hframe.
  pose proof (collect_runs_preserves cfg fun_
                (fun w0 w1 => fs w1 !! path = fs w0 !! path) w) as Hkeep.
  simpl in Hkeep.
  assert (fs (res_world (collect_runs cfg fun_ w)) !! path = fs w !! path)
    as Hfs.
  { apply Hkeep; [done| |done|done].
    intros w0 w1 w2 H01 H12. by rewrite H12. }
  split.
  - intros wr er w1 Hc. by rewrite Hc in Hfs.
  - intros e we Hr. split; [by apply wrapper_raises|].
    apply collect_runs_raises in Hr. by rewrite Hr in Hfs.
Qed.

(** C4, as the code has it.  For a workload that returns, in each of the
    four configurations (1, 16), (2, 8), (4, 4), (8, 2) one execution of
    the configuration's task issues exactly 16 invocations of the workload,
    every one of its [n_threads] workers calling it exactly [n_runs] times
    under any scheduling; the wrapper executes the task [test_iterations]
    times, so the configuration issues [16 * test_iterations] invocations
    in all. *)
Theorem C4_invocations f test_iterations n_threads n_runs w :
  returns f ->
  (forall w0, calls (res_world (f w0)) = calls w0) ->
  In (n_threads, n_runs) configurations ->
  (exists w' log,
     experiment f n_threads n_runs w = Ok tt w'
     /\ calls w' = calls w ++ log
     /\ length log = 16%nat
     /\ forall tid, count_occ Nat.eq_dec log tid
                    = if (tid <? Z.to_nat n_threads)%nat then Z.to_nat n_runs
                      else O)
  /\ invocations (run_threaded f test_iterations n_threads n_runs) w
     = (16 * Z.to_nat test_iterations)%nat.
Proof.
  intros Hf Hlog Hin.
  assert ((Z.to_nat n_threads * Z.to_nat n_runs)%nat = 16%nat) as H16.
  { unfold configurations in Hin. simpl in Hin.
    destruct Hin as [[= <- <-]|[[= <- <-]|[[= <- <-]|[[= <- <-]|[]]]]];
      reflexivity. }
  split.
  - destruct (experiment_calls f Hf Hlog n_threads n_runs w)
      as (w' & log & Hexp & Hc & Hlen & Hcnt).
    exists w', log. by rewrite <- H16.
  - unfold run_threaded, benchmark.
    rewrite (wrapper_invocations _ _ 16); [simpl; lia|].
    intros w0.
    destruct (experiment_calls f Hf Hlog n_threads n_runs w0)
      as (w' & log & Hexp & Hc & Hlen & _).
    exists w'. split; [done|]. rewrite Hc, length_app. lia.
Qed.

(** C8.  [test] runs the four configurations in order; for each it prints
    the banner and invokes once the wrapper built with [warmups = 0],
    [iter = test_iterations], [verbose = True] and the file name
    f_<threads>_<runs>.csv around the configuration's task.  Where that
    file can be written the invocation returns, whatever the workload does,
    and the file holds the header and one row per repetition. *)
Theorem C8_driver_wrapping f f_name test_iterations w :
  test f f_name test_iterations w
  = for_each configurations
      (fun c =>
         bind (print (banner f_name c.1 c.2))
              (fun _ =>
                 wrapper (mkConfig 0 test_iterations true
                            (Some ("f_" +:+ str_int c.1 +:+ "_"
                                        +:+ str_int c.2 +:+ ".csv")))
                         (experiment f c.1 c.2))) w
  /\ map (fun c => csv_name c.1 c.2) configurations
     = ["f_1_16.csv"; "f_2_8.csv"; "f_4_4.csv"; "f_8_2.csv"]
  /\ (forall n_threads n_runs w0,
        writable (csv_name n_threads n_runs) = true ->
        (forall t, no_newline (str_float t) = true) ->
        exists execution_runs w' content,
          run_threaded f test_iterations n_threads n_runs w0 = Ok tt w'
          /\ fs w' !! csv_name n_threads n_runs = Some content
          /\ splitlines content
             = "run num,is warmup,timing" :: map csv_row execution_runs
          /\ length execution_runs = Z.to_nat test_iterations).
Proof.
  split; [apply test_configurations|]. split; [reflexivity|].
  intros n_threads n_runs w0 Hwritable Hfloat. unfold run_threaded, benchmark.
  destruct (wrapper_file
              (mkConfig 0 test_iterations true (Some (csv_name n_threads n_runs)))
              (experiment f n_threads n_runs) (csv_name n_threads n_runs) w0
              eq_refl Hwritable (experiment_returns f n_threads n_runs))
    as (wr & er & w1 & w' & _ & Hwrap & Hfs & Hlw & Hle).
  destruct wr as [|r wr]; [|done].
  exists er, w', (csv_text er).
  split; [done|]. split; [done|].
  split; [by apply splitlines_csv_text|done].
Qed.

End Proofs.

(** * The claims on concrete runs *)

Section Witnesses.

Import Sample.

#[local] Existing Instance rt.

(** The model runs: the output and the file of one invocation with one
    warmup and three measured runs, and the workload invocations of the
    whole driver with two repetitions. *)
Example sample_output :
  out (res_world (benchmark 1 3 true (Some "a.csv") tick W0))
  = ["Warmup round 1/1:              5 s";
     "Execution round 1/3:              5 s";
     "Execution round 2/3:              5 s";
     "Execution round 3/3:              5 s";
     "     is_warmup        rounds          mean      variance";
     "         False             3             5             0"].
Proof. vm_compute. reflexivity. Qed.

Example sample_file :
  fs (res_world (benchmark 1 3 true (Some "a.csv") tick W0)) !! "a.csv"
  = Some (unlines ["run num,is warmup,timing";
                   "1,True,5"; "1,False,5"; "2,False,5"; "3,False,5"]).
Proof. vm_compute. reflexivity. Qed.

Example sample_driver :
  heap (res_world (test tick "fib" 2 W0)) = 128%nat
  /\ dom (fs (res_world (test tick "fib" 2 W0)))
     = {["f_1_16.csv"; "f_2_8.csv"; "f_4_4.csv"; "f_8_2.csv"]}.
Proof. split; vm_compute; reflexivity. Qed.

Lemma tick_returns : returns tick.
Proof. intros w. reflexivity. Defined.

Lemma flaky_keeps_file k path (w : @World rt nat) :
  fs (res_world (flaky k w)) !! path = fs w !! path.
Proof. unfold flaky. destruct (heap w =? k)%nat; reflexivity. Defined.

Lemma C1_witness :
  let cfg := mkConfig 1 3 false None in
  exists warmup_runs execution_runs (w1 w2 : @World rt nat),
    start_runs cfg tick 1 true "Warmup round" W0 = Ok warmup_runs w1
    /\ start_runs cfg tick 3 false "Execution round" w1 = Ok execution_runs w2
    /\ length (warmup_runs ++ execution_runs) = 4%nat
    /\ map run_num warmup_runs = [1]
    /\ map run_num execution_runs = [1; 2; 3].
Proof.
  intros cfg.
  destruct (C1_run_records cfg tick W0 ltac:(simpl; lia) ltac:(simpl; lia)
              tick_returns)
    as (wr & er & w1 & w2 & H1 & H2 & _ & Hlen & _ & _ & _ & _ & Hn1 & Hn2).
  exists wr, er, w1, w2. repeat split; assumption.
Defined.

Lemma C2_witness :
  let cfg := mkConfig 1 3 true (Some "a.csv") in
  exists (w' : @World rt nat) content,
    wrapper cfg tick W0 = Ok tt w'
    /\ fs w' !! "a.csv" = Some content
    /\ length (splitlines content) = 5%nat.
Proof.
  intros cfg.
  destruct (C2_csv_file cfg tick "a.csv" W0 eq_refl eq_refl
              no_newline_str_int ltac:(simpl; lia) ltac:(simpl; lia)
              tick_returns)
    as (wr & er & w1 & w' & content & _ & Hwrap & Hfs & _ & _ & _ & _ & _ & Hlen).
  exists w', content. repeat split; assumption.
Defined.

Lemma C3_witness :
  let cfg := mkConfig 1 3 false None in
  exists (w1 w' : @World rt nat) rows,
    wrapper cfg tick W0 = Ok tt w'
    /\ out w' = out w1 ++ table_header :: rows
    /\ (existsb (is_phase_row true) rows = true <-> 2 <= 1)
    /\ (existsb (is_phase_row false) rows = true <-> 2 <= 3).
Proof.
  intros cfg.
  destruct (C3_table_rows cfg tick W0 tick_returns eq_refl)
    as (wr & er & w1 & w' & rows & _ & Hwrap & Hout & _ & _ & _ & Ht & Hm).
  exists w1, w', rows. repeat split; try assumption; apply Ht || apply Hm.
Defined.

Lemma C4_witness :
  (exists (w' : @World rt nat) log,
     experiment tick 2 8 W0 = Ok tt w'
     /\ calls w' = calls W0 ++ log
     /\ length log = 16%nat
     /\ count_occ Nat.eq_dec log 0%nat = 8%nat
     /\ count_occ Nat.eq_dec log 1%nat = 8%nat)
  /\ invocations (run_threaded tick 2 2 8) W0 = 32%nat.
Proof.
  destruct (C4_invocations tick 2 2 8 W0 tick_returns
              ltac:(intros; reflexivity) ltac:(simpl; tauto))
    as [(w' & log & Hexp & Hc & Hlen & Hcnt) Hinv].
  split; [|exact Hinv].
  exists w', log. repeat split; try assumption.
  - exact (Hcnt 0%nat).
  - exact (Hcnt 1%nat).
Defined.

(** C4 as the specification has it, 16 invocations per configuration
    whatever [test_iterations] is, fails for the [test_iterations = 2] of
    the program's own main: the configuration (1, 16) issues 32. *)
Lemma C4_counterexample :
  invocations (run_threaded tick 2 1 16) W0 = 32%nat
  /\ invocations (run_threaded tick 2 1 16) W0 <> 16%nat.
Proof. split; [vm_compute; reflexivity|]. vm_compute. discriminate. Qed.

Lemma C5_witness :
  let cfg := mkConfig 1 3 false (Some "a.csv") in
  exists (w1 w2 : @World rt nat) first last,
    wrapper cfg tick W0 = Ok tt w1
    /\ fs w1 !! "a.csv" = Some first
    /\ wrapper cfg tick w1 = Ok tt w2
    /\ fs w2 !! "a.csv" = Some last
    /\ length (splitlines last) = length (splitlines first).
Proof.
  intros cfg.
  destruct (C5_overwrite cfg tick "a.csv" W0 eq_refl eq_refl
              no_newline_str_int tick_returns)
    as (w1 & wr & er & wm & w2 & first & last
        & Hw1 & Hf1 & _ & Hw2 & Hf2 & _ & Hlen).
  exists w1, w2, first, last. repeat split; assumption.
Defined.

Lemma C6_witness :
  let cfg := mkConfig 2 0 false None in
  exists warmup_runs (w1 w' : @World rt nat),
    collect_runs cfg tick W0 = Ok (warmup_runs, []) w1
    /\ wrapper cfg tick W0 = Ok tt w'
    /\ existsb (is_phase_row false) (stats_table warmup_runs []) = false.
Proof.
  intros cfg.
  destruct (C6_no_statistics_fault cfg tick W0) as [Hzero _].
  destruct (Hzero eq_refl tick_returns eq_refl)
    as (wr & w1 & w' & Hc & Hwrap & _ & Hrow).
  exists wr, w1, w'. repeat split; assumption.
Defined.

Lemma C7_witness :
  let cfg := mkConfig 1 3 false (Some "a.csv") in
  let we := @mkWorld rt nat 11 [] ∅ (fun k => k) [] 3%nat in
  raises_during_runs cfg (flaky 2) W0 (UserError 7) we
  /\ wrapper cfg (flaky 2) W0 = Raise (UserError 7) we.
Proof.
  intros cfg we.
  assert (raises_during_runs cfg (flaky 2) W0 (UserError 7) we) as Hr.
  { right. eexists _, _, 1%nat. split; [vm_compute; reflexivity|].
    split; [simpl; lia|]. eexists _, _.
    split; vm_compute; reflexivity. }
  split; [exact Hr|].
  exact (C7_exception_propagates cfg (flaky 2) W0 (UserError 7) we Hr).
Defined.

Lemma C8_witness :
  exists execution_runs (w' : @World rt nat) content,
    run_threaded tick 2 4 4 W0 = Ok tt w'
    /\ fs w' !! "f_4_4.csv" = Some content
    /\ splitlines content
       = "run num,is warmup,timing" :: map csv_row execution_runs
    /\ length execution_runs = 2%nat.
Proof.
  destruct (C8_driver_wrapping tick "fib" 2 W0) as (_ & _ & Hfile).
  exact (Hfile 4 4 W0 eq_refl no_newline_str_int).
Defined.

Lemma C9_witness :
  let cfg := mkConfig 0 1 false None in
  exists (w1 w' : @World rt nat),
    wrapper cfg tick W0 = Ok tt w'
    /\ out w' = out w1
                ++ ["     is_warmup        rounds          mean      variance"].
Proof.
  intros cfg.
  destruct (C9_header_always cfg tick W0 tick_returns eq_refl)
    as (wr & er & w1 & w' & rows & _ & Hwrap & Hout & Hhead & Hrows).
  exists w1, w'. split; [exact Hwrap|].
  rewrite Hout, (Hrows ltac:(simpl; lia) ltac:(simpl; lia)). reflexivity.
Defined.

Lemma C10_witness :
  let cfg := mkConfig 1 3 false (Some "a.csv") in
  let we := @mkWorld rt nat 11 [] ∅ (fun k => k) [] 3%nat in
  wrapper cfg (flaky 2) W0 = Raise (UserError 7) we
  /\ fs we !! "a.csv" = fs W0 !! "a.csv".
Proof.
  intros cfg we.
  destruct (C10_file_untouched_on_error cfg (flaky 2) "a.csv" W0 eq_refl
              (flaky_keeps_file 2 "a.csv")) as [_ Hraise].
  apply Hraise.
  right. eexists _, _, 1%nat. split; [vm_compute; reflexivity|].
  split; [simpl; lia|]. eexists _, _.
  split; vm_compute; reflexivity.
Defined.

End Witnesses.

(** * Further properties of the code *)

(** ** The sample workload [fib] *)

Lemma fib_negative depth n : n < 0 -> fib depth n = None.
Proof.
  revert n. induction depth as [|depth IH]; intros n Hn; [done|].
  simpl. destruct (n =? 0) eqn:H0; [lia|]. destruct (n =? 1) eqn:H1; [lia|].
  simpl. by rewrite IH by lia.
Qed.

Lemma fib_shallow depth n : (Z.of_nat depth < n) -> fib depth n = None.
Proof.
  revert n. induction depth as [|depth IH]; intros n Hn; [done|].
  simpl. destruct (n =? 0) eqn:H0; [lia|]. destruct (n =? 1) eqn:H1; [lia|].
  simpl. by rewrite IH by lia.
Qed.

Lemma fib_deep depth n :
  0 <= n -> n <= Z.of_nat depth -> (1 <= depth)%nat ->
  exists v, fib depth n = Some v /\ 1 <= v.
Proof.
  revert n. induction depth as [|depth IH]; intros n H0 Hn Hd; [lia|].
  simpl. destruct ((n =? 0) || (n =? 1)) eqn:Hbase; [exists 1; split; [done|lia]|].
  apply orb_false_iff in Hbase as [Hn0 Hn1].
  apply Z.eqb_neq in Hn0, Hn1.
  destruct (IH (n - 1)) as (a & -> & Ha); [lia..|].
  destruct (IH (n - 2)) as (b & -> & Hb); [lia..|].
  exists (a + b). split; [done|lia].
Qed.

(** [fib(n)] returns exactly when [n >= 0] and the recursion depth left is
    at least [n] and at least one; otherwise, and so for every negative
    [n] at any depth, it ends in RecursionError. *)
Theorem fib_returns_iff depth n :
  is_Some (fib depth n) <-> 0 <= n /\ n <= Z.of_nat depth /\ (1 <= depth)%nat.
Proof.
  split.
  - intros [v Hv].
    destruct (Z.ltb_spec n 0) as [Hneg|Hpos]; [by rewrite fib_negative in Hv|].
    destruct (Z.ltb_spec (Z.of_nat depth) n) as [Hsh|Hd];
      [by rewrite fib_shallow in Hv|].
    destruct depth; [done|]. lia.
  - intros (H0 & Hn & Hd). destruct (fib_deep depth n H0 Hn Hd) as (v & -> & _).
    eauto.
Qed.

Lemma fib_depth_mono depth depth' n v :
  fib depth n = Some v -> (depth <= depth')%nat -> fib depth' n = Some v.
Proof.
  revert depth' n v. induction depth as [|depth IH]; intros depth' n v Hv Hle;
    [done|].
  destruct depth' as [|depth']; [lia|]. simpl in *.
  destruct ((n =? 0) || (n =? 1)); [done|].
  destruct (fib depth (n - 1)) as [a|] eqn:Ha; [|done].
  destruct (fib depth (n - 2)) as [b|] eqn:Hb; [|done].
  rewrite (IH depth' _ _ Ha), (IH depth' _ _ Hb) by lia. done.
Qed.

Lemma fib_step depth n a b :
  1 <= n -> fib depth n = Some a -> fib depth (n + 1) = Some b -> a < b.
Proof.
  intros Hn Ha Hb. destruct depth as [|depth]; [done|]. simpl in Hb.
  destruct (n + 1 =? 0) eqn:H0; [lia|]. destruct (n + 1 =? 1) eqn:H1; [lia|].
  simpl in Hb.
  destruct (fib depth (n + 1 - 1)) as [a'|] eqn:Ha'; [|done].
  destruct (fib depth (n + 1 - 2)) as [b'|] eqn:Hb'; [|done].
  injection Hb as <-.
  replace (n + 1 - 1) with n in Ha' by lia.
  rewrite (fib_depth_mono _ (Datatypes.S depth) _ _ Ha') in Ha by lia.
  injection Ha as <-.
  assert (is_Some (fib depth (n + 1 - 2))) as Hs by eauto.
  apply fib_returns_iff in Hs as (? & ? & ?).
  destruct (fib_deep depth (n + 1 - 2)) as (v & Hv & Hv1); [lia..|].
  rewrite Hv in Hb'. injection Hb' as <-. lia.
Qed.

Lemma fib_increasing depth n a (k : nat) b :
  1 <= n -> fib depth n = Some a ->
  fib depth (n + 1 + Z.of_nat k) = Some b -> a < b.
Proof.
  intros Hn Ha. revert b. induction k as [|k IH]; intros b Hb.
  - replace (n + 1 + Z.of_nat 0) with (n + 1) in Hb by lia.
    by apply (fib_step depth n).
  - assert (is_Some (fib depth (n + 1 + Z.of_nat (Datatypes.S k)))) as Hs
      by eauto.
    apply fib_returns_iff in Hs as (? & ? & ?).
    destruct (fib_deep depth (n + 1 + Z.of_nat k)) as (c & Hc & _); [lia..|].
    specialize (IH c Hc).
    assert (c < b); [|lia].
    apply (fib_step depth (n + 1 + Z.of_nat k)); [lia|done|].
    by replace (n + 1 + Z.of_nat k + 1)
      with (n + 1 + Z.of_nat (Datatypes.S k)) by lia.
Qed.

(** What [fib] returns does not depend on the depth that was left; it is
    at least 1, and strictly increasing in [n] from [n = 1] on. *)
Theorem fib_value depth depth' n m a b :
  fib depth n = Some a -> fib depth' m = Some b ->
  1 <= a /\ (n = m -> a = b) /\ (1 <= n -> n < m -> a < b).
Proof.
  intros Ha Hb.
  apply (fib_depth_mono _ (Nat.max depth depth')) in Ha; [|lia].
  apply (fib_depth_mono _ (Nat.max depth depth')) in Hb; [|lia].
  assert (is_Some (fib (Nat.max depth depth') n)) as Hs by eauto.
  apply fib_returns_iff in Hs as (H0 & Hle & Hd).
  split; [|split].
  - destruct (fib_deep _ n H0 Hle Hd) as (v & Hv & Hv1).
    rewrite Hv in Ha. injection Ha as <-. done.
  - intros ->. rewrite Ha in Hb. by injection Hb.
  - intros Hn Hnm.
    apply (fib_increasing (Nat.max depth depth') n a (Z.to_nat (m - n - 1)) b);
      [done|done|].
    by replace (n + 1 + Z.of_nat (Z.to_nat (m - n - 1))) with m by lia.
Qed.

(** An evaluation of [fib(n)] that returns [v] makes [2 * v - 1] calls of
    [fib]; the counting changes neither the result nor whether there is
    one. *)
Theorem fib_calls depth n :
  fib_count depth n = (fun v => (v, 2 * v - 1)) <$> fib depth n.
Proof.
  revert n. induction depth as [|depth IH]; intros n; [done|].
  simpl. destruct ((n =? 0) || (n =? 1)); [done|].
  rewrite !IH.
  destruct (fib depth (n - 1)) as [a|]; [|done].
  destruct (fib depth (n - 2)) as [b|]; [|done].
  simpl. do 2 f_equal. lia.
Qed.

Lemma fib_value_witness :
  fib 28 28 = Some 514229 /\ fib 40 27 = Some 317811
  /\ 1 <= 317811 /\ 317811 < 514229.
Proof.
  assert (fib 40 27 = Some 317811) as Ha by (vm_compute; reflexivity).
  assert (fib 28 28 = Some 514229) as Hb by (vm_compute; reflexivity).
  destruct (fib_value 40 28 27 28 317811 514229 Ha Hb) as (H1 & _ & Hlt).
  split; [exact Hb|]. split; [exact Ha|]. split; [exact H1|].
  apply Hlt; lia.
Defined.

(** ** The wrapper at the edges *)

Section WrapperEdges.

Context `{RT : Runtime} {Heap : Type}.

Implicit Types (w : @World RT Heap) (cfg : Config).

Lemma range_nonpositive n : n <= 0 -> range n = [].
Proof. intros Hn. unfold range. by apply seqZ_nil. Qed.

(** The loop looks at the configuration for [verbose] only. *)
Lemma runs_loop_verbose cfg cfg' (fun_ : @M RT Heap unit) n is_warmup title
  idx (runs : list (@Run RT)) w :
  verbose cfg = verbose cfg' ->
  runs_loop cfg fun_ n is_warmup title idx runs w
  = runs_loop cfg' fun_ n is_warmup title idx runs w.
Proof.
  intros Hv. revert runs w. induction idx as [|i idx IH]; intros runs w; [done|].
  destruct (fun_ w) as [[] w1|e we] eqn:Hf.
  - rewrite !(runs_loop_cons_ok _ _ _ _ _ _ _ _ _ _ Hf), Hv. apply IH.
  - by rewrite !(runs_loop_cons_raise _ _ _ _ _ _ _ _ _ _ _ Hf).
Qed.

Lemma start_runs_clamp cfg cfg' (fun_ : @M RT Heap unit) n is_warmup title w :
  verbose cfg = verbose cfg' ->
  start_runs cfg fun_ n is_warmup title w
  = start_runs cfg' fun_ (Z.max 0 n) is_warmup title w.
Proof.
  intros Hv. unfold start_runs. destruct (Z.le_gt_cases n 0) as [Hn|Hn].
  - rewrite (range_nonpositive n Hn), (range_nonpositive (Z.max 0 n)) by lia.
    done.
  - replace (Z.max 0 n) with n by lia. by apply runs_loop_verbose.
Qed.

Lemma bind_cong {A B} (m m' : @M RT Heap A) (k k' : A -> M B) w :
  m w = m' w -> (forall a w', k a w' = k' a w') ->
  bind m k w = bind m' k' w.
Proof. intros Hm Hk. unfold bind. rewrite Hm. by destruct (m' w). Qed.

(** Counts below zero are counts of zero: [range] of a negative number is
    empty. *)
Theorem wrapper_negative_counts (n k : Z) (vb : bool)
  (file : option string) (fun_ : @M RT Heap unit) w :
  benchmark n k vb file fun_ w
  = benchmark (Z.max 0 n) (Z.max 0 k) vb file fun_ w.
Proof.
  unfold benchmark, wrapper, collect_runs. cbn [warmups iter].
  rewrite !bind_assoc.
  apply bind_cong; [by apply start_runs_clamp|]. intros wr w1.
  rewrite !bind_assoc.
  apply bind_cong; [by apply start_runs_clamp|]. intros er w2.
  reflexivity.
Qed.

(** With no run to do the workload is not invoked at all, whatever it is:
    the invocation is the reporting step on no records.  Where the file can
    be written it returns, the file holds the header line alone and the
    header of the table is the only line printed. *)
Theorem wrapper_no_runs cfg (fun_ : @M RT Heap unit) w :
  warmups cfg <= 0 -> iter cfg <= 0 ->
  wrapper cfg fun_ w = report cfg [] [] w
  /\ (can_write cfg = true ->
      wrapper cfg fun_ w
      = Ok tt (set_out (set_fs w (written cfg [] (fs w)))
                       (out w ++ [table_header])))
  /\ csv_text (@nil (@Run RT)) = "run num,is warmup,timing" +:+ NL.
Proof.
  intros Hw Hk.
  assert (wrapper cfg fun_ w = report cfg [] [] w) as Hwrap.
  { unfold wrapper, collect_runs, start_runs.
    by rewrite (range_nonpositive _ Hw), (range_nonpositive _ Hk). }
  split; [done|]. split; [|done].
  intros Hcan. rewrite Hwrap. by rewrite report_ok.
Qed.

(** When the file cannot be opened, the invocation of a workload that
    returns does all its runs, then raises [OSError] from the world the runs
    left: the table is not printed and no file is written. *)
Theorem wrapper_unwritable cfg (fun_ : @M RT Heap unit) w :
  can_write cfg = false -> returns fun_ ->
  exists warmup_runs execution_runs w2,
    collect_runs cfg fun_ w = Ok (warmup_runs, execution_runs) w2
    /\ length warmup_runs = Z.to_nat (warmups cfg)
    /\ length execution_runs = Z.to_nat (iter cfg)
    /\ wrapper cfg fun_ w = Raise OSError w2.
Proof.
  intros Hcan Hf.
  destruct (collect_runs_returns cfg fun_ w Hf)
    as (wr & er & w1 & w2 & Hwr & Her & Hc).
  destruct (start_runs_records _ _ _ _ _ _ _ _ Hwr) as (Hlw & _).
  destruct (start_runs_records _ _ _ _ _ _ _ _ Her) as (Hle & _).
  exists wr, er, w2. repeat split; try done.
  rewrite (wrapper_collected _ _ _ _ _ _ Hc). by apply report_raise.
Qed.

(** *** Standard output *)

Lemma runs_loop_out cfg (fun_ : @M RT Heap unit) n is_warmup title idx
  (runs rs : list (@Run RT)) w w' :
  (forall w0, out (res_world (fun_ w0)) = out w0) ->
  runs_loop cfg fun_ n is_warmup title idx runs w = Ok rs w' ->
  exists new, rs = runs ++ new
              /\ out w' = out w ++ verbose_lines cfg title n new.
Proof.
  intros Hquiet. revert runs w. induction idx as [|i idx IH]; intros runs w Hl.
  - injection Hl as <- <-. exists []. split; [by rewrite app_nil_r|].
    unfold verbose_lines. destruct (verbose cfg); simpl; by rewrite app_nil_r.
  - destruct (fun_ w) as [[] w1|e we] eqn:Hf.
    + rewrite (runs_loop_cons_ok _ _ _ _ _ _ _ _ _ _ Hf) in Hl.
      apply IH in Hl as (new & -> & Hout).
      pose proof (Hquiet w) as Hq. rewrite Hf in Hq. simpl in Hq.
      exists ((i + 1, is_warmup, tsub (now w1) (now w)) :: new).
      split; [by rewrite <- app_assoc|].
      rewrite Hout. unfold verbose_lines.
      destruct (verbose cfg); simpl; [|by rewrite Hq].
      unfold run_num, run_time. simpl.
      rewrite Z.add_simpl_r, Hq, <- app_assoc. done.
    + by rewrite (runs_loop_cons_raise _ _ _ _ _ _ _ _ _ _ _ Hf) in Hl.
Qed.

(** For a workload that prints nothing and returns, the invocation adds to
    the standard output, in this order: when [verbose] is set one line per
    record, warmup records first, each with its number in the phase, the
    size of the phase and its duration; then the table. *)
Theorem wrapper_output cfg (fun_ : @M RT Heap unit) w :
  (forall w0, out (res_world (fun_ w0)) = out w0) ->
  returns fun_ -> can_write cfg = true ->
  exists warmup_runs execution_runs w2 w',
    collect_runs cfg fun_ w = Ok (warmup_runs, execution_runs) w2
    /\ wrapper cfg fun_ w = Ok tt w'
    /\ out w' = out w
                ++ verbose_lines cfg "Warmup round" (warmups cfg) warmup_runs
                ++ verbose_lines cfg "Execution round" (iter cfg) execution_runs
                ++ stats_table warmup_runs execution_runs.
Proof.
  intros Hquiet Hf Hcan.
  destruct (wrapper_returns cfg fun_ w Hf Hcan)
    as (wr & er & w1 & w2 & Hwr & Her & Hc & Hwrap).
  apply (runs_loop_out _ _ _ _ _ _ _ _ _ _ Hquiet) in Hwr as (new1 & -> & H1).
  apply (runs_loop_out _ _ _ _ _ _ _ _ _ _ Hquiet) in Her as (new2 & -> & H2).
  eexists _, _, w2, _. split; [exact Hc|]. split; [exact Hwrap|].
  cbn [out set_out set_fs]. rewrite H2, H1. simpl.
  by rewrite <- !app_assoc.
Qed.

(** *** Durations *)



(** *** Files *)

(** For a workload that leaves the files alone, the files after a complete
    invocation are those before it with the configured file replaced by the
    text of the records: no other path is touched, and without a configured
    file nothing is written. *)
Theorem wrapper_files cfg (fun_ : @M RT Heap unit) w :
  (forall w0, fs (res_world (fun_ w0)) = fs w0) ->
  returns fun_ -> can_write cfg = true ->
  exists warmup_runs execution_runs w2 w',
    collect_runs cfg fun_ w = Ok (warmup_runs, execution_runs) w2
    /\ wrapper cfg fun_ w = Ok tt w'
    /\ fs w' = written cfg (warmup_runs ++ execution_runs) (fs w)
    /\ (csv_file cfg = None -> fs w' = fs w)
    /\ (forall path other,
          csv_file cfg = Some path -> other <> path ->
          fs w' !! other = fs w !! other).
Proof.
  intros Hkeep Hf Hcan.
  destruct (wrapper_returns cfg fun_ w Hf Hcan)
    as (wr & er & w1 & w2 & Hwr & Her & Hc & Hwrap).
  pose proof (collect_runs_preserves cfg fun_
                (fun w0 w1 => fs w1 = fs w0) w) as Hfs.
  rewrite Hc in Hfs. simpl in Hfs.
  assert (fs w2 = fs w) as Hsame.
  { apply Hfs; [done| |done|done]. intros w0 w3 w4 H03 H34. by rewrite H34. }
  eexists wr, er, w2, _. split; [done|]. split; [exact Hwrap|].
  cbn [fs set_out set_fs]. rewrite Hsame. unfold written.
  split; [done|]. split.
  - by intros ->.
  - intros path other -> Hne. by apply lookup_insert_ne.
Qed.

(** *** The default arguments *)

(** With the defaults [warmups=0, iter=1, verbose=False, csv_file=None] the
    decorated function is executed exactly once; if it returns, the table
    header is printed after it and nothing else happens: one record gives
    no statistics row.  If it raises, that is all that happened. *)
Theorem benchmark_defaults (fun_ : @M RT Heap unit) w :
  benchmark 0 1 false None fun_ w
  = match fun_ w with
    | Ok _ w1 => Ok tt (set_out w1 (out w1 ++ [table_header]))
    | Raise e we => Raise e we
    end.
Proof.
  set (cfg := mkConfig 0 1 false None).
  assert (start_runs cfg fun_ 0 true "Warmup round" w = Ok [] w) as Hwr
    by reflexivity.
  assert (start_runs cfg fun_ 1 false "Execution round" w
          = runs_loop cfg fun_ 1 false "Execution round" [0] [] w) as Her
    by reflexivity.
  unfold benchmark. fold cfg. unfold wrapper, collect_runs.
  change (warmups cfg) with 0. change (iter cfg) with 1.
  rewrite bind_assoc, (bind_ok _ _ _ _ _ Hwr), bind_assoc.
  destruct (fun_ w) as [[] w1|e we] eqn:Hf.
  - rewrite (runs_loop_cons_ok _ _ _ _ _ _ _ _ _ _ Hf) in Her.
    rewrite (bind_ok _ _ _ _ _ Her). unfold ret, bind. cbn [fst snd].
    rewrite report_ok by done. cbn [written csv_file cfg].
    by rewrite set_fs_same.
  - rewrite (runs_loop_cons_raise _ _ _ _ _ _ _ _ _ _ _ Hf) in Her.
    by rewrite (bind_raise _ _ _ _ _ Her).
Qed.

End WrapperEdges.

(** ** The worker threads and the driver *)

Section DriverEdges.

Context `{RT : Runtime} {Heap : Type}.

Implicit Types (w : @World RT Heap) (f : @M RT Heap unit).

(** [n_threads] workers call a workload that returns [n_runs] times each,
    under any scheduling: [n_threads * n_runs] calls in all, for any two
    numbers. *)
Theorem experiment_invocations f n_threads n_runs w :
  returns f ->
  (forall w0, calls (res_world (f w0)) = calls w0) ->
  exists w' log,
    experiment f n_threads n_runs w = Ok tt w'
    /\ calls w' = calls w ++ log
    /\ length log = (Z.to_nat n_threads * Z.to_nat n_runs)%nat
    /\ forall tid, count_occ Nat.eq_dec log tid
                   = if (tid <? Z.to_nat n_threads)%nat then Z.to_nat n_runs
                     else O.
Proof. intros Hf Hlog. by apply experiment_calls. Qed.

(** Without a worker or without a run per worker the task does nothing at
    all, whatever the workload. *)
Theorem experiment_nothing_to_do f n_threads n_runs w :
  n_threads <= 0 \/ n_runs <= 0 -> experiment f n_threads n_runs w = Ok tt w.
Proof.
  intros Hz. unfold experiment, bind.
  replace (Z.to_nat n_threads * Z.to_nat n_runs)%nat with O by lia.
  reflexivity.
Qed.

Lemma returns_not_raise f w e we : returns f -> f w <> Raise e we.
Proof. intros Hf Hr. specialize (Hf w). by rewrite Hr in Hf. Qed.

Lemma run_threaded_raise f test_iterations n_threads n_runs w e we :
  run_threaded f test_iterations n_threads n_runs w = Raise e we ->
  e = OSError /\ writable (csv_name n_threads n_runs) = false.
Proof.
  unfold run_threaded, benchmark. intros Hr.
  apply wrapper_raise_inv in Hr as [Hr|(-> & Hcan & _)]; [|done].
  exfalso.
  destruct Hr as [[j Hj]|(wr & w1 & j & _ & Hj)];
    destruct Hj as (_ & runs & wj & _ & Hraise);
    by apply (returns_not_raise _ _ _ _ (experiment_returns f n_threads n_runs))
      in Hraise.
Qed.

(** An exception of the workload in a worker thread never reaches the
    caller: the task returns whatever the workload does, so the only
    exception of a benchmarked configuration is [OSError] for a file that
    cannot be opened. *)
Theorem workload_exceptions_swallowed f test_iterations n_threads n_runs w :
  is_ok (experiment f n_threads n_runs w) = true
  /\ forall e we,
       run_threaded f test_iterations n_threads n_runs w = Raise e we ->
       e = OSError /\ writable (csv_name n_threads n_runs) = false.
Proof.
  split; [apply experiment_returns|]. intros e we. apply run_threaded_raise.
Qed.

Lemma pending_cons (x : nat) (pool : list nat) :
  pending (x :: pool) = ((if (0 <? x)%nat then 1 else 0) + pending pool)%nat.
Proof.
  unfold pending. rewrite filter_cons.
  destruct (0 <? x)%nat eqn:Hx; by destruct (decide _).
Qed.

Lemma pending_insert_zero (pool : list nat) tid k :
  pool !! tid = Some (Datatypes.S k) ->
  Datatypes.S (pending (<[tid := O]> pool)) = pending pool.
Proof.
  revert tid. induction pool as [|x pool IH]; intros [|tid] Hp;
    simplify_eq/=; rewrite !pending_cons; simpl; [done|].
  rewrite <- (IH tid Hp). lia.
Qed.

Lemma pending_replicate n k :
  pending (replicate n k) = if (0 <? k)%nat then n else O.
Proof.
  induction n as [|n IH]; simpl; [by destruct (0 <? k)%nat|].
  rewrite pending_cons, IH. by destruct (0 <? k)%nat.
Qed.

Lemma run_threads_failing f fuel (pool : list nat) w :
  (forall w0, is_ok (f w0) = false) ->
  (forall w0, calls (res_world (f w0)) = calls w0) ->
  (sum_list pool <= fuel)%nat ->
  exists w' log,
    run_threads f fuel pool w = Ok (replicate (length pool) O) w'
    /\ calls w' = calls w ++ log
    /\ length log = pending pool
    /\ forall tid, count_occ Nat.eq_dec log tid
                   = if (0 <? default O (pool !! tid))%nat then 1%nat else O.
Proof.
  intros Hfail Hlog. revert pool w.
  assert (forall (pool : list nat) w,
    pool = replicate (length pool) O ->
    exists w' log,
      Ok pool w = Ok (replicate (length pool) O) w'
      /\ calls w' = calls w ++ log
      /\ length log = pending pool
      /\ forall tid, count_occ Nat.eq_dec log tid
                     = if (0 <? default O (pool !! tid))%nat then 1%nat else O)
    as Hdone.
  { intros pool w Hz. exists w, [].
    split; [by f_equal|]. split; [by rewrite app_nil_r|].
    split; [by rewrite Hz, pending_replicate|].
    intros tid. rewrite Hz. destruct (decide (tid < length pool)%nat).
    - by rewrite lookup_replicate_2.
    - by rewrite (proj1 (lookup_replicate_None _ _ _)) by lia. }
  induction fuel as [|fuel IH]; intros pool w Hfuel.
  - simpl. apply Hdone, sum_list_zero. lia.
  - simpl. destruct (pick_thread pool w) as [tid|] eqn:Hpick.
    + apply pick_thread_Some in Hpick as [k Hk].
      pose proof (Hfail (dispatch tid w)) as Hraise.
      pose proof (Hlog (dispatch tid w)) as Hkeep.
      destruct (f (dispatch tid w)) as [[] w1|e w1]; [done|].
      simpl in Hkeep.
      destruct (IH (<[tid := O]> pool) w1)
        as (w' & log & Hrun & Hc & Hlen & Hcnt).
      { pose proof (sum_list_insert_zero pool tid k Hk). lia. }
      exists w', (tid :: log). rewrite Hrun, length_insert.
      split; [done|]. split; [by rewrite Hc, Hkeep, <- app_assoc|].
      split; [simpl; rewrite Hlen; by apply (pending_insert_zero pool tid k)|].
      intros tid'. simpl. rewrite Hcnt.
      apply lookup_lt_Some in Hk as Hlt.
      destruct (Nat.eq_dec tid tid') as [<-|Hne].
      * by rewrite list_lookup_insert_eq, Hk.
      * by rewrite list_lookup_insert_ne.
    + apply Hdone. by apply pick_thread_None in Hpick.
Qed.

(** A workload that always raises is called exactly once by every worker
    that has a run to do: the first exception ends the worker, the other
    workers still start. *)
Theorem failing_workload_one_call_per_worker f n_threads n_runs w :
  (forall w0, is_ok (f w0) = false) ->
  (forall w0, calls (res_world (f w0)) = calls w0) ->
  0 < n_runs ->
  exists w' log,
    experiment f n_threads n_runs w = Ok tt w'
    /\ calls w' = calls w ++ log
    /\ length log = Z.to_nat n_threads
    /\ forall tid, count_occ Nat.eq_dec log tid
                   = if (tid <? Z.to_nat n_threads)%nat then 1%nat else O.
Proof.
  intros Hfail Hlog Hruns.
  destruct (run_threads_failing f (Z.to_nat n_threads * Z.to_nat n_runs)
              (replicate (Z.to_nat n_threads) (Z.to_nat n_runs)) w Hfail Hlog)
    as (w' & log & Hrun & Hc & Hlen & Hcnt).
  { by rewrite sum_list_replicate. }
  assert ((0 <? Z.to_nat n_runs)%nat = true) as Hpos
    by (apply Nat.ltb_lt; lia).
  exists w', log. unfold experiment, bind. rewrite Hrun.
  split; [done|]. split; [done|].
  split; [by rewrite Hlen, pending_replicate, Hpos|].
  intros tid. rewrite Hcnt.
  destruct (tid <? Z.to_nat n_threads)%nat eqn:Hlt.
  - apply Nat.ltb_lt in Hlt. rewrite lookup_replicate_2 by done.
    simpl. by rewrite Hpos.
  - apply Nat.ltb_ge in Hlt.
    by rewrite (proj1 (lookup_replicate_None _ _ _)).
Qed.

End DriverEdges.

(** ** The driver as a whole *)

Section DriverWhole.

Context `{RT : Runtime} {Heap : Type}.

Implicit Types (w : @World RT Heap) (f : @M RT Heap unit).








End DriverWhole.

(** ** File names *)

Lemma lacks_digits (c : ascii) (d : Decimal.uint) :
  (forall k, In k ["0"; "1"; "2"; "3"; "4"; "5"; "6"; "7"; "8"; "9"]%char ->
             Ascii.eqb k c = false) ->
  lacks c (NilEmpty.string_of_uint d) = true.
Proof.
  intros Hc. induction d; cbn [NilEmpty.string_of_uint lacks]; [done|..];
    rewrite IHd, Hc; simpl; tauto.
Qed.

Lemma lacks_str_int (c : ascii) (z : Z) :
  In c ["_"; "."]%char -> lacks c (str_int z) = true.
Proof.
  intros Hc.
  assert (forall d, lacks c (NilEmpty.string_of_uint d) = true) as Hd.
  { intros d. apply lacks_digits. intros k Hk. simpl in Hc, Hk.
    destruct Hc as [<-|[<-|[]]];
      repeat (destruct Hk as [<-|Hk]; [reflexivity|]); destruct Hk. }
  assert (lacks c "0" = true /\ Ascii.eqb "-" c = false) as [H0 Hm]
    by (simpl in Hc; destruct Hc as [<-|[<-|[]]]; done).
  assert (forall d, lacks c (NilZero.string_of_uint d) = true) as Hu.
  { intros d. destruct d; [exact H0|..]; apply Hd. }
  unfold str_int, NilZero.string_of_int.
  destruct (Z.to_int z) as [d|d]; [apply Hu|].
  cbn [lacks]. by rewrite Hm, Hu.
Qed.

Lemma str_int_inj (a b : Z) : str_int a = str_int b -> a = b.
Proof.
  unfold str_int. intros Hs.
  assert (forall z, NilZero.int_of_string (NilZero.string_of_int (Z.to_int z))
                    = Some (Z.to_int z)) as Hrt.
  { intros z. apply NilZero.isi; destruct z; simpl; try discriminate;
      intros [= Hn]; by apply DecimalPos.Unsigned.to_uint_nonnil in Hn. }
  apply DecimalZ.to_int_inj.
  pose proof (Hrt a) as Ha. rewrite Hs, Hrt in Ha. by injection Ha.
Qed.

Lemma split_at (c : ascii) (a a' r r' : string) :
  lacks c a = true -> lacks c a' = true ->
  a +:+ String c r = a' +:+ String c r' -> a = a' /\ r = r'.
Proof.
  revert a'. induction a as [|x a IH]; intros [|x' a'] Ha Ha' Heq;
    simpl in Ha, Ha'; rewrite ?string_app_cons, ?string_app_nil_l in Heq.
  - by injection Heq.
  - injection Heq as <- _. by rewrite Ascii.eqb_refl in Ha'.
  - injection Heq as -> _. by rewrite Ascii.eqb_refl in Ha.
  - injection Heq as -> Heq.
    apply andb_true_iff in Ha as [_ Ha]. apply andb_true_iff in Ha' as [_ Ha'].
    destruct (IH a' Ha Ha' Heq) as [-> ->]. done.
Qed.

(** The file name determines the configuration: two configurations never
    share an output file. *)
Theorem csv_name_inj (n_threads n_runs n_threads' n_runs' : Z) :
  csv_name n_threads n_runs = csv_name n_threads' n_runs' ->
  n_threads = n_threads' /\ n_runs = n_runs'.
Proof.
  unfold csv_name. intros Heq.
  change ("f_" +:+ ?s) with (String "f" (String "_" s)) in Heq.
  injection Heq as Heq.
  change ("_" +:+ ?s) with (String "_"%char s) in Heq.
  apply (split_at "_") in Heq as [Ht Heq];
    [|apply lacks_str_int; simpl; tauto..].
  change (".csv") with (String "."%char "csv") in Heq.
  apply (split_at ".") in Heq as [Hr _];
    [|apply lacks_str_int; simpl; tauto..].
  split; by apply str_int_inj.
Qed.

(** ** The further properties on concrete runs *)

Section MoreWitnesses.

Import Sample.

#[local] Existing Instance rt.

Lemma boom_raises (w : @World rt nat) : is_ok (boom w) = false.
Proof. reflexivity. Defined.


Lemma fib_returns_witness : is_Some (fib 28 28) /\ ~ is_Some (fib 1000 (-1)).
Proof.
  split.
  - apply fib_returns_iff. simpl. lia.
  - intros Hs. apply fib_returns_iff in Hs. lia.
Defined.

Lemma wrapper_no_runs_witness :
  let cfg := mkConfig 0 (-2) true (Some "a.csv") in
  wrapper cfg boom W0
  = Ok tt (set_out (set_fs W0 (written cfg [] (fs W0)))
                   (out W0 ++ [table_header])).
Proof.
  intros cfg.
  destruct (wrapper_no_runs cfg boom W0 ltac:(simpl; lia) ltac:(simpl; lia))
    as (_ & Hok & _).
  exact (Hok eq_refl).
Defined.

Lemma wrapper_unwritable_witness :
  let cfg := mkConfig 1 3 false (Some "/readonly.csv") in
  exists warmup_runs execution_runs (w2 : @World rt nat),
    collect_runs cfg tick W0 = Ok (warmup_runs, execution_runs) w2
    /\ length execution_runs = 3%nat
    /\ wrapper cfg tick W0 = Raise OSError w2.
Proof.
  intros cfg.
  destruct (wrapper_unwritable cfg tick W0 eq_refl tick_returns)
    as (wr & er & w2 & Hc & _ & Hle & Hwrap).
  exists wr, er, w2. repeat split; assumption.
Defined.

Lemma wrapper_output_witness :
  let cfg := mkConfig 1 3 true None in
  exists warmup_runs execution_runs (w' : @World rt nat),
    wrapper cfg tick W0 = Ok tt w'
    /\ out w' = out W0
                ++ verbose_lines cfg "Warmup round" 1 warmup_runs
                ++ verbose_lines cfg "Execution round" 3 execution_runs
                ++ stats_table warmup_runs execution_runs.
Proof.
  intros cfg.
  destruct (wrapper_output cfg tick W0 ltac:(intros; reflexivity)
              tick_returns eq_refl)
    as (wr & er & w2 & w' & _ & Hwrap & Hout).
  exists wr, er, w'. split; assumption.
Defined.


Lemma wrapper_files_witness :
  let cfg := mkConfig 1 3 false (Some "a.csv") in
  exists (w' : @World rt nat),
    wrapper cfg tick W0 = Ok tt w'
    /\ fs w' !! "b.csv" = fs W0 !! "b.csv".
Proof.
  intros cfg.
  destruct (wrapper_files cfg tick W0 ltac:(intros; reflexivity)
              tick_returns eq_refl)
    as (wr & er & w2 & w' & _ & Hwrap & _ & _ & Hother).
  exists w'. split; [exact Hwrap|].
  apply (Hother "a.csv"); [reflexivity|discriminate].
Defined.

Lemma experiment_invocations_witness :
  exists (w' : @World rt nat) log,
    experiment tick 3 5 W0 = Ok tt w'
    /\ calls w' = calls W0 ++ log
    /\ length log = 15%nat
    /\ count_occ Nat.eq_dec log 2%nat = 5%nat.
Proof.
  destruct (experiment_invocations tick 3 5 W0 tick_returns
              ltac:(intros; reflexivity))
    as (w' & log & Hexp & Hc & Hlen & Hcnt).
  exists w', log. repeat split; try assumption. exact (Hcnt 2%nat).
Defined.

Lemma experiment_nothing_to_do_witness : experiment boom 0 5 W0 = Ok tt W0.
Proof. apply experiment_nothing_to_do. left. lia. Defined.

Lemma failing_workload_witness :
  exists (w' : @World rt nat) log,
    experiment boom 4 4 W0 = Ok tt w'
    /\ calls w' = calls W0 ++ log
    /\ length log = 4%nat
    /\ count_occ Nat.eq_dec log 3%nat = 1%nat.
Proof.
  destruct (failing_workload_one_call_per_worker boom 4 4 W0 boom_raises
              ltac:(intros; reflexivity) ltac:(lia))
    as (w' & log & Hexp & Hc & Hlen & Hcnt).
  exists w', log. repeat split; try assumption. exact (Hcnt 3%nat).
Defined.


Lemma workload_exceptions_swallowed_witness :
  is_ok (experiment boom 2 8 W0) = true
  /\ run_threaded tick_locked 2 1 16 W0_locked
     = Raise OSError (res_world (run_threaded tick_locked 2 1 16 W0_locked)).
Proof.
  destruct (workload_exceptions_swallowed boom 2 2 8 W0) as [Hok _].
  split; [exact Hok|].
  destruct (workload_exceptions_swallowed tick_locked 2 1 16 W0_locked)
    as [_ Hraise].
  destruct (run_threaded tick_locked 2 1 16 W0_locked) as [[] w'|e we] eqn:Hr.
  - vm_compute in Hr. discriminate Hr.
  - destruct (Hraise e we eq_refl) as [-> _]. reflexivity.
Defined.


Lemma csv_name_inj_witness :
  csv_name 4 4 = "f_4_4.csv" /\ (4 = 4 /\ 4 = 4).
Proof.
  split; [reflexivity|]. apply csv_name_inj. reflexivity.
Defined.

End MoreWitnesses.
